(** * Online store: double-entry ledger and purchase-order workflow

    A shallow embedding of [src/ledger.py] and [src/orders.py].

    - [Decimal] values are coefficient/exponent pairs, as Python's
      [decimal.Decimal] stores them; their meaning is the rational
      [coef * 10 ^ expo] ([dval]).  Only finite values are modelled, and
      the working precision of the arithmetic context is taken to be wide
      enough that no sum or product is rounded.
    - Python objects that are reached through more than one reference
      ([Account]s, referenced by the ledger's dict and by journal lines)
      live in an object store indexed by locations.
    - Code that raises or mutates runs in a state-and-exception monad in
      which a raised exception keeps the mutations made before it. *)

From Stdlib Require Import ZArith QArith Qpower Lqa Lia Bool.
From stdpp Require Import gmap strings list fin_maps pretty.

Open Scope Z_scope.

(** ** Decimal *)

Module Dec.

Record Decimal := D { coef : Z; expo : Z }.

(** [Decimal(n)] for a Python int, and the literal [Decimal('0.00')]. *)
Definition of_int (n : Z) : Decimal := D n 0.
Definition zero2 : Decimal := D 0 (-2).

(** Coefficient of [d] once rescaled to exponent [e] (for [e <= expo d]). *)
Definition rescale (e : Z) (d : Decimal) : Z := coef d * 10 ^ (expo d - e).

(** [a + b]: the result carries the smaller exponent. *)
Definition add (a b : Decimal) : Decimal :=
  let e := Z.min (expo a) (expo b) in
  D (rescale e a + rescale e b) e.

(** Unary minus. *)
Definition neg (a : Decimal) : Decimal := D (- coef a) (expo a).

(** [a * b]: coefficients multiply, exponents add. *)
Definition mul (a b : Decimal) : Decimal := D (coef a * coef b) (expo a + expo b).

(** Comparisons are numeric: both operands are rescaled to the smaller
    exponent and the coefficients compared. *)
Definition cmp (a b : Decimal) : comparison :=
  let e := Z.min (expo a) (expo b) in
  rescale e a ?= rescale e b.

Definition eqb (a b : Decimal) : bool :=
  match cmp a b with Eq => true | _ => false end.
Definition ltb (a b : Decimal) : bool :=
  match cmp a b with Lt => true | _ => false end.
Definition leb (a b : Decimal) : bool :=
  match cmp a b with Gt => false | _ => true end.
Definition gtb (a b : Decimal) : bool := ltb b a.

(** The rational a [Decimal] stands for. *)
Definition dval (d : Decimal) : Q := inject_Z (coef d) * (10 # 1) ^ expo d.

(** Python's [sum(xs)]: a left fold of [+] starting from the int [0],
    which [Decimal.__radd__] coerces to [Decimal(0)]. *)
Definition sum (xs : list Decimal) : Decimal := fold_left add xs (of_int 0).

(** The exact rational sum of the values of [xs]. *)
Fixpoint qsum (xs : list Decimal) : Q :=
  match xs with
  | [] => 0%Q
  | d :: xs' => (dval d + qsum xs')%Q
  end.

End Dec.

Import Dec.

(** ** Exceptions and mutable state *)

Module Py.

(** Every exception the two modules raise themselves is a [ValueError]. *)
Inductive exn := ValueError (msg : string).

Inductive outcome (A : Type) :=
  | Ok (a : A)
  | Raise (e : exn).
Arguments Ok {A} a.
Arguments Raise {A} e.

(** A computation over a mutable state [S]: it returns or raises, and in
    both cases hands back the state as mutated so far. *)
Definition M (S A : Type) : Type := S -> outcome A * S.

Definition ret {S A} (a : A) : M S A := fun s => (Ok a, s).

Definition bind {S A B} (m : M S A) (k : A -> M S B) : M S B :=
  fun s =>
    match m s with
    | (Ok a, s') => k a s'
    | (Raise e, s') => (Raise e, s')
    end.

Definition raise {S A} (e : exn) : M S A := fun s => (Raise e, s).

Definition get {S} : M S S := fun s => (Ok s, s).

Definition modify {S} (f : S -> S) : M S unit := fun s => (Ok tt, f s).

(** A call that raises or returns without touching the state. *)
Definition lift_outcome {S A} (r : outcome A) : M S A := fun s => (r, s).

(** [try: body except ValueError as e: handler e]. *)
Definition try_except {S A} (body : M S A) (handler : exn -> M S A) : M S A :=
  fun s =>
    match body s with
    | (Ok a, s') => (Ok a, s')
    | (Raise e, s') => handler e s'
    end.

(** Run a computation over a component [get_t s] of a larger state. *)
Definition zoom {S T A} (get_t : S -> T) (set_t : T -> S -> S)
    (m : M T A) : M S A :=
  fun s => let (r, t') := m (get_t s) in (r, set_t t' s).

(** [for x in xs: body x], with no [break] and no early [return]. *)
Fixpoint for_each {S A} (xs : list A) (body : A -> M S unit) : M S unit :=
  match xs with
  | [] => ret tt
  | x :: xs' => bind (body x) (fun _ => for_each xs' body)
  end.

(** [str(e)] for an exception built from one message. *)
Definition str_exn (e : exn) : string :=
  match e with ValueError msg => msg end.

End Py.

Import Py.

Declare Scope py_scope.
Delimit Scope py_scope with py.
Notation "x <- m ;; k" := (bind m (fun x => k))
  (at level 100, m at next level, right associativity) : py_scope.
Notation "m ;; k" := (bind m (fun _ => k))
  (at level 100, right associativity) : py_scope.
Open Scope py_scope.

(** ** ledger.py *)

Module ledger.

Inductive AccountType := ASSET | LIABILITY | EQUITY | INCOME | EXPENSE.

Inductive JournalEntryLineType := DEBIT | CREDIT.

#[global] Instance AccountType_eq_dec : EqDecision AccountType.
Proof. solve_decision. Defined.

#[global] Instance JournalEntryLineType_eq_dec : EqDecision JournalEntryLineType.
Proof. solve_decision. Defined.

(** A [datetime.date]. *)
Record date := { year : Z; month : Z; day : Z }.

(** References to [Account] objects. *)
Definition loc := nat.

Record Account := {
  name : string;
  account_type : AccountType;
  balance : Decimal
}.

Record JournalEntryLine := {
  account : loc;
  amount : Decimal;
  entry_type : JournalEntryLineType
}.

Record JournalEntry := {
  jdate : date;
  description : string;
  lines : list JournalEntryLine;
  entry_id : string
}.

Record Ledger := {
  accounts : gmap string loc;
  journal_entries : list JournalEntry
}.

(** The [Account] objects in memory (every reference denotes an object),
    together with the one [Ledger] object. *)
Record Store := {
  heap : loc -> Account;
  ledger_system : Ledger
}.

Definition set_balance (b : Decimal) (a : Account) : Account :=
  {| name := name a; account_type := account_type a; balance := b |}.

Definition heap_update (h : loc -> Account) (l : loc) (a : Account)
    : loc -> Account :=
  fun l' => if Nat.eqb l' l then a else h l'.

(** [self.balance = b] on the object at [self]. *)
Definition write_balance (self : loc) (b : Decimal) : M Store unit :=
  modify (fun s =>
    {| heap := heap_update (heap s) self (set_balance b (heap s self));
       ledger_system := ledger_system s |}).

Definition read (self : loc) : M Store Account :=
  fun s => (Ok (heap s self), s).

(** [Account.__init__]: the type is an [AccountType] by typing, so the
    [isinstance] guard never fires. *)
Definition Account_init (name : string) (account_type : AccountType)
    (initial_balance : Decimal) : Account :=
  {| name := name; account_type := account_type; balance := initial_balance |}.

(** [Account._apply_transaction] for a [Decimal] amount.  The final
    [else: raise] is unreachable: the five cases cover the enum. *)
Definition _apply_transaction (self : loc) (amount : Decimal)
    (is_debit : bool) : M Store unit :=
  if ltb amount zero2 then
    raise (ValueError "Transaction amount must be non-negative.")
  else
    a <- read self ;;
    match account_type a with
    | ASSET =>
        write_balance self (add (balance a) (if is_debit then amount else neg amount))
    | LIABILITY =>
        write_balance self (add (balance a) (if is_debit then neg amount else amount))
    | EQUITY =>
        write_balance self (add (balance a) (if is_debit then neg amount else amount))
    | INCOME =>
        write_balance self (add (balance a) (if is_debit then neg amount else amount))
    | EXPENSE =>
        write_balance self (add (balance a) (if is_debit then amount else neg amount))
    end.

Definition credit (self : loc) (amount : Decimal) : M Store unit :=
  _apply_transaction self amount false.

Definition debit (self : loc) (amount : Decimal) : M Store unit :=
  _apply_transaction self amount true.

(** [JournalEntryLine.__init__]: only the amount check can fail. *)
Definition JournalEntryLine_init (account : loc) (amount : Decimal)
    (entry_type : JournalEntryLineType) : outcome JournalEntryLine :=
  if leb amount zero2 then
    Raise (ValueError "Journal entry line amount must be positive.")
  else
    Ok {| account := account; amount := amount; entry_type := entry_type |}.

(** [JournalEntry.__init__] with no [lines] argument; the uuid4 string is
    supplied by the caller. *)
Definition JournalEntry_init (d : date) (description : string)
    (fresh_id : string) : JournalEntry :=
  {| jdate := d; description := description; lines := []; entry_id := fresh_id |}.

(** [JournalEntry.add_line]: the entry is a local object of its one
    caller, so the append is modelled on the value. *)
Definition add_line (self : JournalEntry) (account : loc) (amount : Decimal)
    (entry_type : JournalEntryLineType) : outcome JournalEntry :=
  match JournalEntryLine_init account amount entry_type with
  | Raise e => Raise e
  | Ok line =>
      Ok {| jdate := jdate self; description := description self;
            lines := lines self ++ [line]; entry_id := entry_id self |}
  end.

Definition is_debit_line (line : JournalEntryLine) : bool :=
  match entry_type line with DEBIT => true | CREDIT => false end.

Definition is_credit_line (line : JournalEntryLine) : bool :=
  match entry_type line with DEBIT => false | CREDIT => true end.

(** [JournalEntry.is_balanced]: it reads the lines and nothing else. *)
Definition is_balanced (self : JournalEntry) : bool :=
  let total_debits := Dec.sum (map amount (List.filter is_debit_line (lines self))) in
  let total_credits := Dec.sum (map amount (List.filter is_credit_line (lines self))) in
  eqb total_debits total_credits.

(** [Ledger.add_account] *)
Definition add_account (account : loc) : M Store unit :=
  s <- get ;;
  let n := name (heap s account) in
  match accounts (ledger_system s) !! n with
  | Some _ =>
      raise (ValueError ("Account with name '" +:+ n +:+ "' already exists."))
  | None =>
      modify (fun s =>
        {| heap := heap s;
           ledger_system :=
             {| accounts := <[n := account]> (accounts (ledger_system s));
                journal_entries := journal_entries (ledger_system s) |} |})
  end.

(** [Ledger.get_account]: an [Account] object is always truthy, so
    [not account] holds exactly when the name is absent. *)
Definition get_account (n : string) : M Store loc :=
  s <- get ;;
  match accounts (ledger_system s) !! n with
  | None => raise (ValueError ("Account with name '" +:+ n +:+ "' not found."))
  | Some account => ret account
  end.

Definition append_entry (entry : JournalEntry) : M Store unit :=
  modify (fun s =>
    {| heap := heap s;
       ledger_system :=
         {| accounts := accounts (ledger_system s);
            journal_entries := journal_entries (ledger_system s) ++ [entry] |} |}).

(** [Ledger.record_entry] *)
Definition record_entry (entry : JournalEntry) : M Store unit :=
  if negb (is_balanced entry) then
    raise (ValueError
      "Journal entry must be balanced (total debits must equal total credits).")
  else
    for_each (lines entry) (fun line =>
      let account_to_update := account line in
      match entry_type line with
      | DEBIT => debit account_to_update (amount line)
      | CREDIT => credit account_to_update (amount line)
      end) ;;
    append_entry entry.

End ledger.

Import ledger.

(** ** orders.py *)

Module orders.

Record Product := {
  product_id : string;
  name : string;
  price : Decimal;
  stock : Z;
  cost_price : Decimal
}.

(** [Product.__init__]: a missing cost price becomes [Decimal('0.00')]. *)
Definition Product_init (product_id name : string) (price : Decimal)
    (stock : Z) (cost_price : option Decimal) : Product :=
  {| product_id := product_id; name := name; price := price; stock := stock;
     cost_price := match cost_price with Some c => c | None => zero2 end |}.

(** [Product.check_stock] *)
Definition Product_check_stock (self : Product) (quantity : Z) : bool :=
  stock self >=? quantity.

(** [Product.update_stock] *)
Definition Product_update_stock (self : Product) (quantity : Z)
    : outcome Product :=
  if Product_check_stock self quantity then
    Ok {| product_id := product_id self; name := name self;
          price := price self; stock := stock self - quantity;
          cost_price := cost_price self |}
  else
    Raise (ValueError
      ("Not enough stock for product " +:+ product_id self +:+
       ". Available: " +:+ pretty (stock self) +:+
       ", Requested: " +:+ pretty quantity)).

(** The inventory's dict; each [Product] object is held under one key. *)
Record Inventory := { products : gmap string Product }.

Definition add_product (product : Product) (self : Inventory) : Inventory :=
  {| products := <[product_id product := product]> (products self) |}.

Definition get_product (self : Inventory) (pid : string) : option Product :=
  products self !! pid.

(** [Inventory.check_stock] *)
Definition Inventory_check_stock (self : Inventory) (pid : string)
    (quantity : Z) : bool :=
  match get_product self pid with
  | Some product => Product_check_stock product quantity
  | None => false
  end.

(** [Inventory.update_stock] *)
Definition Inventory_update_stock (pid : string) (quantity : Z)
    : M Inventory unit :=
  self <- get ;;
  match get_product self pid with
  | Some product =>
      product' <- lift_outcome (Product_update_stock product quantity) ;;
      modify (fun self => {| products := <[pid := product']> (products self) |})
  | None =>
      raise (ValueError ("Product " +:+ pid +:+ " not found in inventory."))
  end.

(** [Inventory.get_product_cost] *)
Definition get_product_cost (self : Inventory) (pid : string)
    : option Decimal :=
  match get_product self pid with
  | Some product => Some (cost_price product)
  | None => None
  end.

(** An entry of [Order.items], as built by [accept_purchase_order]. *)
Record Item := {
  item_product_id : string;
  quantity : Z;
  unit_price : Decimal;
  unit_cost : Decimal
}.

Record Order := {
  order_id : string;
  customer_id : string;
  items : list Item;
  customer_name : option string;
  shipping_address : option string;
  order_date : date
}.

(** [Order.calculate_total] *)
Definition calculate_total (self : Order) : Decimal :=
  Dec.sum (map (fun item => mul (of_int (quantity item)) (unit_price item))
               (items self)).

(** [Order.calculate_total_cost_of_goods_sold] *)
Definition calculate_total_cost_of_goods_sold (self : Order) : Decimal :=
  Dec.sum (map (fun item => mul (of_int (quantity item)) (unit_cost item))
               (items self)).

(** *** The request dict *)

(** The value under ['quantity']: an int or something else. *)
Inductive QuantityValue := QInt (n : Z) | QOther.

(** An element of [order_data['items']]; [None] is a missing key.  The
    unit price is the [Decimal] that [Decimal(str(...))] yields. *)
Record ItemData := {
  data_product_id : option string;
  data_quantity : option QuantityValue;
  data_unit_price : option Decimal
}.

Inductive ItemsValue := ItemsList (l : list ItemData) | ItemsOther.

(** The value under ['order_date']. *)
Inductive DateValue :=
  | DateStr (s : string)
  | DateDatetime (d : date)
  | DateDate (d : date)
  | DateOther.

Record OrderData := {
  data_customer_id : option string;
  data_items : option ItemsValue;
  data_customer_name : option string;
  data_shipping_address : option string;
  data_order_date : DateValue
}.

(** What the function needs of the [datetime] module. *)
Record DatetimeModule := {
  strptime_ymd : string -> option date;
  today : date
}.

(** [orders_collection.insert_one]: it returns, or raises with text [e]. *)
Inductive Collection := InsertOk | InsertRaises (e : string).

Record OrderResult := {
  status : string;
  message : string;
  result_order_id : option string;
  result_total_amount : option Decimal
}.

Definition error (msg : string) : OrderResult :=
  {| status := "error"; message := msg;
     result_order_id := None; result_total_amount := None |}.

Record World := {
  store : Store;
  inventory_system : Inventory
}.

Definition on_ledger {A} (m : M Store A) : M World A :=
  zoom store
       (fun t w => {| store := t; inventory_system := inventory_system w |}) m.

Definition on_inventory {A} (m : M Inventory A) : M World A :=
  zoom inventory_system
       (fun t w => {| store := store w; inventory_system := t |}) m.

Definition missing_keys (present : list (string * bool)) : list string :=
  map fst (List.filter (fun kv => negb (snd kv)) present).

Definition is_some {A} (o : option A) : bool :=
  match o with Some _ => true | None => false end.

(** One round of the validation loop: an error result, or the processed
    item. *)
Definition process_item (inventory : Inventory) (item_index : nat)
    (item_data : ItemData) : OrderResult + Item :=
  match data_product_id item_data, data_quantity item_data,
        data_unit_price item_data with
  | Some product_id, Some quantity, Some unit_price =>
      match quantity with
      | QOther =>
          inl (error ("Item quantity for '" +:+ product_id +:+
                      "' must be a positive integer."))
      | QInt quantity =>
          if quantity <=? 0 then
            inl (error ("Item quantity for '" +:+ product_id +:+
                        "' must be a positive integer."))
          else if ltb unit_price zero2 then
            inl (error ("Item unit price for '" +:+ product_id +:+
                        "' must be a non-negative number."))
          else
            let unit_cost :=
              match get_product_cost inventory product_id with
              | Some c => c
              | None => zero2
              end in
            inr {| item_product_id := product_id; quantity := quantity;
                   unit_price := unit_price; unit_cost := unit_cost |}
      end
  | p, q, u =>
      inl (error ("Invalid item data in order (item " +:+
                  pretty (item_index + 1)%nat +:+ "). Missing: " +:+
                  String.concat ", "
                    (missing_keys [("product_id", is_some p);
                                   ("quantity", is_some q);
                                   ("unit_price", is_some u)]) +:+ "."))
  end.

Fixpoint process_items (inventory : Inventory) (item_index : nat)
    (rest : list ItemData) (processed_items : list Item)
    : OrderResult + list Item :=
  match rest with
  | [] => inr processed_items
  | item_data :: rest' =>
      match process_item inventory item_index item_data with
      | inl err => inl err
      | inr item =>
          process_items inventory (S item_index) rest' (processed_items ++ [item])
      end
  end.

(** The availability loop: the first item that fails ends the call. *)
Fixpoint check_items (inventory : Inventory) (its : list Item)
    : option OrderResult :=
  match its with
  | [] => None
  | item :: rest =>
      if negb (Inventory_check_stock inventory (item_product_id item)
                 (quantity item)) then
        Some (error ("Insufficient stock for product " +:+
                     item_product_id item +:+ "."))
      else check_items inventory rest
  end.

Definition resolve_date (dt_module : DatetimeModule) (v : DateValue) : date :=
  match v with
  | DateStr s =>
      match strptime_ymd dt_module s with
      | Some d => d
      | None => today dt_module
      end
  | DateDatetime d => d
  | DateDate d => d
  | DateOther => today dt_module
  end.

(** Step 6, the body of the [try]: [Some r] is an early [return r]. *)
Definition post_sale (new_order : Order) (total_amount total_cogs : Decimal)
    (entry_uuid : string) : M Store (option OrderResult) :=
  let transaction_date := order_date new_order in
  let entry_description := "Sale for order " +:+ order_id new_order in
  let sale_entry := JournalEntry_init transaction_date entry_description entry_uuid in
  cash_account <- get_account "Cash" ;;
  sales_revenue_account <- get_account "Sales Revenue" ;;
  sale_entry <- lift_outcome (add_line sale_entry cash_account total_amount DEBIT) ;;
  sale_entry <- lift_outcome
    (add_line sale_entry sales_revenue_account total_amount CREDIT) ;;
  sale_entry <-
    (if gtb total_cogs zero2 then
       cogs_account <- get_account "Cost of Goods Sold" ;;
       inventory_asset_account <- get_account "Inventory" ;;
       sale_entry <- lift_outcome
         (add_line sale_entry cogs_account total_cogs DEBIT) ;;
       lift_outcome
         (add_line sale_entry inventory_asset_account total_cogs CREDIT)
     else ret sale_entry) ;;
  if negb (is_balanced sale_entry) then
    ret (Some (error "Internal error: Journal entry for sale is not balanced."))
  else
    record_entry sale_entry ;;
    ret None.

(** [accept_purchase_order].  The two uuid4 strings and the outcome of the
    database insert are inputs; [print] calls are left out, and the total
    in the result is the [Decimal] before its conversion to [float]. *)
Definition accept_purchase_order (order_data : OrderData)
    (dt_module : DatetimeModule) (orders_collection : option Collection)
    (order_uuid entry_uuid : string) : M World OrderResult :=
  match data_customer_id order_data, data_items order_data with
  | Some customer, Some items_value =>
    match items_value with
    | ItemsOther | ItemsList [] =>
        ret (error "Order must contain at least one item.")
    | ItemsList item_list =>
      w <- get ;;
      match process_items (inventory_system w) 0 item_list [] with
      | inl err => ret err
      | inr processed_items =>
        let current_order_date :=
          resolve_date dt_module (data_order_date order_data) in
        let new_order :=
          {| order_id := order_uuid; customer_id := customer;
             items := processed_items;
             customer_name := data_customer_name order_data;
             shipping_address := data_shipping_address order_data;
             order_date := current_order_date |} in
        match check_items (inventory_system w) (items new_order) with
        | Some err => ret err
        | None =>
          for_each (items new_order) (fun item =>
            on_inventory
              (Inventory_update_stock (item_product_id item) (quantity item))) ;;
          let total_amount := calculate_total new_order in
          let total_cogs := calculate_total_cost_of_goods_sold new_order in
          let payment_successful := true in
          if negb payment_successful then
            for_each (items new_order) (fun item =>
              on_inventory
                (Inventory_update_stock (item_product_id item)
                   (- quantity item))) ;;
            ret (error "Payment processing failed.")
          else
            match orders_collection with
            | Some (InsertRaises e) =>
                ret (error ("Failed to save order to database: " +:+ e))
            | _ =>
              early <- try_except
                (on_ledger (post_sale new_order total_amount total_cogs entry_uuid))
                (fun e =>
                   ret (Some (error ("Failed to record financial transaction: "
                                     +:+ str_exn e)))) ;;
              match early with
              | Some r => ret r
              | None =>
                  ret {| status := "success";
                         message := "Purchase order accepted.";
                         result_order_id := Some (order_id new_order);
                         result_total_amount := Some total_amount |}
              end
            end
        end
      end
    end
  | c, i =>
      ret (error ("Missing required order information: " +:+
                  String.concat ", "
                    (missing_keys [("customer_id", is_some c);
                                   ("items", is_some i)]) +:+ "."))
  end.

End orders.

Import orders.

(** ** Notions the properties are stated with *)

Module Spec.

Local Open Scope Q_scope.

(** The polarity table: [true] when a debit increases the balance. *)
Definition debit_increases (t : AccountType) : bool :=
  match t with
  | ASSET | EXPENSE => true
  | LIABILITY | EQUITY | INCOME => false
  end.









(** Exact totals of the two sides of a list of journal lines. *)
Fixpoint debit_total (ls : list JournalEntryLine) : Q :=
  match ls with
  | [] => 0
  | l :: ls' =>
      match entry_type l with
      | DEBIT => dval (amount l) + debit_total ls'
      | CREDIT => debit_total ls'
      end
  end.

Fixpoint credit_total (ls : list JournalEntryLine) : Q :=
  match ls with
  | [] => 0
  | l :: ls' =>
      match entry_type l with
      | DEBIT => credit_total ls'
      | CREDIT => dval (amount l) + credit_total ls'
      end
  end.

(** The objects behind [ledger.accounts.values()]. *)
Definition registered (s : Store) : list loc :=
  map snd (map_to_list (accounts (ledger_system s))).



(** Every key of the ledger's dict is the name of the account stored
    under it, as [add_account] files accounts. *)
Definition ledger_wf (s : Store) : Prop :=
  forall n l, accounts (ledger_system s) !! n = Some l -> ledger.name (heap s l) = n.




(** The stores hold the same ledger dict and committed entries apart, and
    every account object kept its name and type. *)
Definition same_shape (s s' : Store) : Prop :=
  accounts (ledger_system s') = accounts (ledger_system s) /\
  forall l, ledger.name (heap s' l) = ledger.name (heap s l) /\
            account_type (heap s' l) = account_type (heap s l).



(** The body of the loop of [record_entry]. *)
Definition post_line (line : JournalEntryLine) : M Store unit :=
  match entry_type line with
  | DEBIT => debit (account line) (amount line)
  | CREDIT => credit (account line) (amount line)
  end.


End Spec.

Import Spec.


(** ** Well-formed requests and the demo set-up *)

Module Request.

Local Open Scope Q_scope.

(** An item with a product id, a positive integer quantity and a
    non-negative unit price. *)
Definition well_formed_item (it : ItemData) : Prop :=
  exists pid q up,
    it = {| data_product_id := Some pid; data_quantity := Some (QInt q);
            data_unit_price := Some up |} /\
    (0 < q)%Z /\ 0 <= dval up.

(** A request with a customer id and the non-empty item list [l], all of
    whose items are well formed. *)
Definition well_formed (order_data : OrderData) (l : list ItemData) : Prop :=
  is_Some (data_customer_id order_data) /\
  data_items order_data = Some (ItemsList l) /\
  l <> [] /\
  Forall well_formed_item l.

(** The item asks for [q] units of product [pid]. *)
Definition asks_for (it : ItemData) (pid : string) (q : Z) : Prop :=
  data_product_id it = Some pid /\ data_quantity it = Some (QInt q).

Definition insufficient_stock (pid : string) : OrderResult :=
  error ("Insufficient stock for product " +:+ pid +:+ ".").

(** A request for one item. *)
Definition single_item_order (customer pid : string) (q : Z)
    (unit_price : Decimal) (d : DateValue) : OrderData :=
  {| data_customer_id := Some customer;
     data_items := Some (ItemsList
       [ {| data_product_id := Some pid; data_quantity := Some (QInt q);
            data_unit_price := Some unit_price |} ]);
     data_customer_name := None; data_shipping_address := None;
     data_order_date := d |}.

(** The journal entry a sale with cost of goods sold is posted as: the
    sale pair followed by the cost pair. *)
Definition sale_entry_of (d : date) (order_uuid entry_uuid : string)
    (total_amount total_cogs : Decimal)
    (cash revenue cogs inventory : loc) : JournalEntry :=
  {| jdate := d;
     description := "Sale for order " +:+ order_uuid;
     lines :=
       [ {| account := cash; amount := total_amount; entry_type := DEBIT |};
         {| account := revenue; amount := total_amount; entry_type := CREDIT |};
         {| account := cogs; amount := total_cogs; entry_type := DEBIT |};
         {| account := inventory; amount := total_cogs; entry_type := CREDIT |} ];
     entry_id := entry_uuid |}.

(** The call committed two balanced journal entries. *)
Definition commits_two_entries (before after : World) : Prop :=
  exists e1 e2,
    is_balanced e1 = true /\ is_balanced e2 = true /\
    journal_entries (ledger_system (store after)) =
    journal_entries (ledger_system (store before)) ++ [e1; e2].

(** The product with [q] units taken from its stock. *)
Definition take (p : Product) (q : Z) : Product :=
  {| product_id := product_id p; name := name p; price := price p;
     stock := stock p - q; cost_price := cost_price p |}.

Definition stock_of (w : World) (pid : string) : option Z :=
  stock <$> products (inventory_system w) !! pid.

End Request.

Import Request.

(** The inventory and chart of accounts that [orders.py] sets up when run
    as a script. *)
Module Demo.

Definition product1 : Product :=
  Product_init "prod_abc" "Laptop" (D 120000 (-2)) 20 (Some (D 80000 (-2))).
Definition product2 : Product :=
  Product_init "prod_xyz" "Mouse" (D 2500 (-2)) 100 (Some (D 1000 (-2))).

Definition inventory : Inventory :=
  add_product product2 (add_product product1 {| products := ∅ |}).

Definition initial_inventory_value : Decimal :=
  Dec.sum [ mul (cost_price product1) (of_int (stock product1));
            mul (cost_price product2) (of_int (stock product2)) ].

Definition objects (l : loc) : Account :=
  match l with
  | 0%nat => Account_init "Cash" ASSET (D 25000 0)
  | 1%nat => Account_init "Accounts Receivable" ASSET zero2
  | 2%nat => Account_init "Inventory" ASSET initial_inventory_value
  | 3%nat => Account_init "Accounts Payable" LIABILITY zero2
  | 4%nat => Account_init "Owner's Capital" EQUITY
               (add (D 25000 0) initial_inventory_value)
  | 5%nat => Account_init "Retained Earnings" EQUITY zero2
  | 6%nat => Account_init "Sales Revenue" INCOME zero2
  | _ => Account_init "Cost of Goods Sold" EXPENSE zero2
  end.

Definition empty_ledger : Store :=
  {| heap := objects;
     ledger_system := {| accounts := ∅; journal_entries := [] |} |}.

(** [main_ledger] after the eight [add_account] calls. *)
Definition main_ledger : Store :=
  snd (for_each (seq 0 8) add_account empty_ledger).

Definition world : World :=
  {| store := main_ledger; inventory_system := inventory |}.

(** The same shop with a ledger in which no account was registered. *)
Definition world_without_accounts : World :=
  {| store := empty_ledger; inventory_system := inventory |}.

Definition dt_module : DatetimeModule :=
  {| strptime_ymd := fun s =>
       if String.eqb s "2025-05-14"
       then Some {| year := 2025; month := 5; day := 14 |} else None;
     today := {| year := 2025; month := 5; day := 14 |} |}.

(** Two mice at 25.00 each. *)
Definition two_mice : OrderData :=
  single_item_order "cust_1236" "prod_xyz" 2 (D 2500 (-2)) DateOther.

(** More laptops than the shop holds. *)
Definition too_many_laptops : OrderData :=
  single_item_order "cust_1236" "prod_abc" 21 (D 120000 (-2)) DateOther.

(** [sample_order_1] of the script, whose product ids are not in the
    inventory. *)
Definition sample_order_1 : OrderData :=
  {| data_customer_id := Some "cust_7890";
     data_items := Some (ItemsList
       [ {| data_product_id := Some "prod_abc1"; data_quantity := Some (QInt 1);
            data_unit_price := Some (D 12000 (-1)) |};
         {| data_product_id := Some "prod_xyz1"; data_quantity := Some (QInt 2);
            data_unit_price := Some (D 250 (-1)) |} ]);
     data_customer_name := Some "Jane Doe";
     data_shipping_address := Some "123 Main St, Anytown, USA";
     data_order_date := DateStr "2025-05-14" |}.

End Demo.

(** ** ledger.py: the statement classes *)

Module statements.

(** [sum(d.values())] over a dict of [Decimal]s.  The dict is a finite
    map, so the values are met in key order rather than insertion order;
    [Dec.sum] does not depend on the order ([sum_permutation] below). *)
Definition values_sum (d : gmap string Decimal) : Decimal :=
  Dec.sum (map snd (map_to_list d)).
























End statements.

Import statements.

(** ** Notions for the ledger as a whole *)

Module Postings.

Local Open Scope Q_scope.




(** A call on the [Ledger] object. *)
Inductive LedgerCall :=
  | CallAddAccount (a : loc)
  | CallRecordEntry (e : JournalEntry).

Definition run_call (c : LedgerCall) : M Store unit :=
  match c with
  | CallAddAccount a => add_account a
  | CallRecordEntry e => record_entry e
  end.

(** The store after a series of calls, each of which may have returned
    or raised (the caller carrying on after an exception). *)
Definition after_calls (cs : list LedgerCall) (s : Store) : Store :=
  fold_left (fun s c => snd (run_call c s)) cs s.

(** The entry of a sale without cost of goods sold: the sale pair only. *)
Definition sale_only_entry_of (d : date) (order_uuid entry_uuid : string)
    (total_amount : Decimal) (cash revenue : loc) : JournalEntry :=
  {| jdate := d;
     description := "Sale for order " +:+ order_uuid;
     lines :=
       [ {| account := cash; amount := total_amount; entry_type := DEBIT |};
         {| account := revenue; amount := total_amount; entry_type := CREDIT |} ];
     entry_id := entry_uuid |}.

End Postings.

Import Postings.

(** ** Notions for the order workflow as a whole *)

Module Workflow.

Local Open Scope Q_scope.

(** The processed item the validation loop builds from a well-formed
    request item. *)
Definition item_of (inventory : Inventory) (it : ItemData) : Item :=
  let pid := default "" (data_product_id it) in
  {| item_product_id := pid;
     quantity := match data_quantity it with Some (QInt q) => q | _ => 0%Z end;
     unit_price := default zero2 (data_unit_price it);
     unit_cost := default zero2 (get_product_cost inventory pid) |}.

(** Exact total price and exact total cost of a list of items. *)
Fixpoint exact_total (its : list Item) : Q :=
  match its with
  | [] => 0
  | item :: rest =>
      inject_Z (quantity item) * dval (unit_price item) + exact_total rest
  end.


(** The products dict once the quantity of [item] is taken from the
    stock of its product. *)
Definition take_item (ps : gmap string Product) (item : Item)
    : gmap string Product :=
  match ps !! item_product_id item with
  | Some p => <[item_product_id item := take p (quantity item)]> ps
  | None => ps
  end.

Definition take_items (its : list Item) (ps : gmap string Product)
    : gmap string Product :=
  fold_left take_item its ps.

(** The stock-update loop of [accept_purchase_order]. *)
Definition reserve (its : list Item) : M World unit :=
  for_each its (fun item =>
    on_inventory (Inventory_update_stock (item_product_id item) (quantity item))).

Definition success (order_uuid : string) (total_amount : Decimal)
    : OrderResult :=
  {| status := "success"; message := "Purchase order accepted.";
     result_order_id := Some order_uuid;
     result_total_amount := Some total_amount |}.

(** Steps 6 and 7 of [accept_purchase_order], reached once the stock is
    taken and the order saved. *)
Definition finish_order (new_order : Order) (entry_uuid : string)
    : M World OrderResult :=
  early <- try_except
    (on_ledger (post_sale new_order (calculate_total new_order)
                  (calculate_total_cost_of_goods_sold new_order) entry_uuid))
    (fun e => ret (Some (error ("Failed to record financial transaction: "
                                +:+ str_exn e)))) ;;
  match early with
  | Some r => ret r
  | None => ret (success (order_id new_order) (calculate_total new_order))
  end.

(** The [Order] object built from a validated request. *)
Definition order_of (order_data : OrderData) (dt : DatetimeModule)
    (order_uuid : string) (its : list Item) : Order :=
  {| order_id := order_uuid;
     customer_id := default "" (data_customer_id order_data);
     items := its;
     customer_name := data_customer_name order_data;
     shipping_address := data_shipping_address order_data;
     order_date := resolve_date dt (data_order_date order_data) |}.

(** [e] is the entry step 6 builds for the order in the ledger [s]: the
    sale pair on the accounts "Cash" and "Sales Revenue", followed, when
    the cost of goods sold is positive, by the cost pair on
    "Cost of Goods Sold" and "Inventory". *)
Definition sale_entry_for (s : Store) (o : Order) (entry_uuid : string)
    (e : JournalEntry) : Prop :=
  let total := calculate_total o in
  let cogs_amt := calculate_total_cost_of_goods_sold o in
  exists cash revenue,
    accounts (ledger_system s) !! "Cash" = Some cash /\
    accounts (ledger_system s) !! "Sales Revenue" = Some revenue /\
    0 < dval total /\
    ((dval cogs_amt <= 0 /\
      e = sale_only_entry_of (order_date o) (order_id o) entry_uuid total
            cash revenue) \/
     (0 < dval cogs_amt /\
      exists cogs inventory,
        accounts (ledger_system s) !! "Cost of Goods Sold" = Some cogs /\
        accounts (ledger_system s) !! "Inventory" = Some inventory /\
        e = sale_entry_of (order_date o) (order_id o) entry_uuid total cogs_amt
              cash revenue cogs inventory)).

(** A request for two items. *)
Definition two_item_order (customer : string) (pid1 : string) (q1 : Z)
    (up1 : Decimal) (pid2 : string) (q2 : Z) (up2 : Decimal) (d : DateValue)
    : OrderData :=
  {| data_customer_id := Some customer;
     data_items := Some (ItemsList
       [ {| data_product_id := Some pid1; data_quantity := Some (QInt q1);
            data_unit_price := Some up1 |};
         {| data_product_id := Some pid2; data_quantity := Some (QInt q2);
            data_unit_price := Some up2 |} ]);
     data_customer_name := None; data_shipping_address := None;
     data_order_date := d |}.

End Workflow.

Import Workflow.

(** ** Decimal arithmetic is exact *)

Section DecimalFacts.

Local Open Scope Q_scope.

Lemma ten_nonzero : ~ (10 # 1) == 0.
Proof. intros H. discriminate H. Qed.

Lemma ten_pow_pos (e : Z) : 0 < (10 # 1) ^ e.
Proof. apply Qpower_0_lt. reflexivity. Qed.

Lemma dval_rescale (d : Decimal) (e : Z) :
  (e <= expo d)%Z -> dval d == inject_Z (rescale e d) * (10 # 1) ^ e.
Proof.
  intros He. unfold dval, rescale.
  rewrite inject_Z_mult.
  rewrite Zpower_Qpower by lia.
  replace (expo d) with ((expo d - e) + e)%Z at 1 by lia.
  rewrite Qpower_plus by apply ten_nonzero.
  change (inject_Z 10) with (10 # 1).
  ring.
Qed.

Lemma dval_add (a b : Decimal) : dval (add a b) == dval a + dval b.
Proof.
  rewrite (dval_rescale a (Z.min (expo a) (expo b))) by lia.
  rewrite (dval_rescale b (Z.min (expo a) (expo b))) by lia.
  unfold add, dval; cbn [coef expo].
  rewrite inject_Z_plus. ring.
Qed.


Lemma dval_mul (a b : Decimal) : dval (mul a b) == dval a * dval b.
Proof.
  unfold mul, dval; cbn [coef expo].
  rewrite inject_Z_mult, Qpower_plus by apply ten_nonzero. ring.
Qed.

Lemma dval_of_int (n : Z) : dval (of_int n) == inject_Z n.
Proof. unfold dval, of_int; cbn. ring. Qed.

Lemma dval_zero2 : dval zero2 == 0.
Proof. reflexivity. Qed.

Lemma cmp_spec (a b : Decimal) : cmp a b = (dval a ?= dval b).
Proof.
  set (e := Z.min (expo a) (expo b)).
  assert (Ha : dval a == inject_Z (rescale e a) * (10 # 1) ^ e)
    by (apply dval_rescale; subst e; lia).
  assert (Hb : dval b == inject_Z (rescale e b) * (10 # 1) ^ e)
    by (apply dval_rescale; subst e; lia).
  pose proof (ten_pow_pos e) as Hp.
  unfold cmp. fold e.
  destruct (Z.compare_spec (rescale e a) (rescale e b)) as [H|H|H]; symmetry.
  - apply Qeq_alt. rewrite Ha, Hb, H. reflexivity.
  - apply Qlt_alt. rewrite Ha, Hb.
    apply Qmult_lt_compat_r; [exact Hp|]. rewrite <- Zlt_Qlt. exact H.
  - apply Qgt_alt. rewrite Ha, Hb.
    apply Qmult_lt_compat_r; [exact Hp|]. rewrite <- Zlt_Qlt. exact H.
Qed.

Lemma eqb_spec (a b : Decimal) : eqb a b = true <-> dval a == dval b.
Proof.
  unfold eqb. rewrite cmp_spec, Qeq_alt.
  destruct (dval a ?= dval b); split; congruence.
Qed.

Lemma ltb_spec (a b : Decimal) : ltb a b = true <-> dval a < dval b.
Proof.
  unfold ltb. rewrite cmp_spec, Qlt_alt.
  destruct (dval a ?= dval b); split; congruence.
Qed.

Lemma leb_spec (a b : Decimal) : leb a b = true <-> dval a <= dval b.
Proof.
  unfold leb. rewrite cmp_spec, Qle_alt.
  destruct (dval a ?= dval b); split; congruence.
Qed.

Lemma gtb_spec (a b : Decimal) : gtb a b = true <-> dval b < dval a.
Proof. apply ltb_spec. Qed.

Lemma ltb_false (a b : Decimal) : ltb a b = false <-> dval b <= dval a.
Proof.
  rewrite <- not_true_iff_false, ltb_spec. split.
  - apply Qnot_lt_le.
  - apply Qle_not_lt.
Qed.

Lemma dval_fold_add (xs : list Decimal) (acc : Decimal) :
  dval (fold_left add xs acc) == dval acc + qsum xs.
Proof.
  revert acc. induction xs as [|x xs IH]; intros acc; cbn [fold_left qsum].
  - ring.
  - rewrite IH, dval_add. ring.
Qed.

Lemma dval_sum (xs : list Decimal) : dval (Dec.sum xs) == qsum xs.
Proof. unfold Dec.sum. rewrite dval_fold_add, dval_of_int. ring. Qed.

End DecimalFacts.

(** ** Accounts *)

Section AccountFacts.

Local Open Scope Q_scope.

(** The amount [_apply_transaction] adds to the balance. *)
Lemma apply_transaction_ok (s : Store) (self : loc) (amount : Decimal)
    (is_debit : bool) :
  ltb amount zero2 = false ->
  _apply_transaction self amount is_debit s =
  (Ok tt,
   {| heap := heap_update (heap s) self
        (set_balance
           (add (balance (heap s self))
              (if Bool.eqb is_debit (debit_increases (account_type (heap s self)))
               then amount else neg amount))
           (heap s self));
      ledger_system := ledger_system s |}).
Proof.
  intros Hlt. unfold _apply_transaction. rewrite Hlt.
  unfold bind, read, write_balance, modify.
  destruct (account_type (heap s self)), is_debit; reflexivity.
Qed.

Lemma apply_transaction_raise (s : Store) (self : loc) (amount : Decimal)
    (is_debit : bool) :
  ltb amount zero2 = true ->
  _apply_transaction self amount is_debit s =
  (Raise (ValueError "Transaction amount must be non-negative."), s).
Proof. intros Hlt. unfold _apply_transaction. rewrite Hlt. reflexivity. Qed.


Lemma nonnegative_iff (amount : Decimal) :
  ltb amount zero2 = false <-> 0 <= dval amount.
Proof. rewrite ltb_false, dval_zero2. reflexivity. Qed.





End AccountFacts.

Section OperationSequences.

Local Open Scope Q_scope.







End OperationSequences.

(** ** Journal entries *)

Section JournalFacts.

Local Open Scope Q_scope.

Lemma qsum_debits (ls : list JournalEntryLine) :
  qsum (map amount (List.filter is_debit_line ls)) == debit_total ls.
Proof.
  induction ls as [|l ls IH]; cbn [List.filter map qsum debit_total].
  - reflexivity.
  - unfold is_debit_line at 1.
    destruct (entry_type l); cbn [map qsum]; rewrite IH; reflexivity.
Qed.

Lemma qsum_credits (ls : list JournalEntryLine) :
  qsum (map amount (List.filter is_credit_line ls)) == credit_total ls.
Proof.
  induction ls as [|l ls IH]; cbn [List.filter map qsum credit_total].
  - reflexivity.
  - unfold is_credit_line at 1.
    destruct (entry_type l); cbn [map qsum]; rewrite IH; reflexivity.
Qed.

Lemma is_balanced_totals (e : JournalEntry) :
  is_balanced e = true <-> debit_total (lines e) == credit_total (lines e).
Proof.
  unfold is_balanced. cbv zeta.
  rewrite eqb_spec, !dval_sum, qsum_debits, qsum_credits. reflexivity.
Qed.





(** C9: an entry without lines counts as balanced, and recording it
    returns normally: the entry joins the committed sequence and no
    account object and no dict entry changes. *)
Theorem record_entry_empty (s : Store) (e : JournalEntry) :
  lines e = [] ->
  is_balanced e = true /\
  record_entry e s =
  (Ok tt,
   {| heap := heap s;
      ledger_system :=
        {| accounts := accounts (ledger_system s);
           journal_entries := journal_entries (ledger_system s) ++ [e] |} |}).
Proof.
  intros Hl.
  assert (Hb : is_balanced e = true).
  { unfold is_balanced. rewrite Hl. reflexivity. }
  split; [exact Hb|].
  unfold record_entry. rewrite Hb, Hl. reflexivity.
Qed.

Lemma record_entry_empty_witness :
  let s := {| heap := fun _ => Account_init "Cash" ASSET (D 1000 0);
              ledger_system := {| accounts := ∅; journal_entries := [] |} |} in
  let e := JournalEntry_init {| year := 2025; month := 5; day := 14 |}
             "nothing" "e0" in
  lines e = [] /\
  is_balanced e = true /\
  record_entry e s =
  (Ok tt,
   {| heap := heap s;
      ledger_system :=
        {| accounts := accounts (ledger_system s);
           journal_entries := journal_entries (ledger_system s) ++ [e] |} |}).
Proof.
  intros s e. split; [reflexivity|].
  apply (record_entry_empty s e). reflexivity.
Defined.

End JournalFacts.

(** ** The accounting equation *)

Section AccountingEquation.

Local Open Scope Q_scope.




Lemma registered_NoDup (s : Store) : ledger_wf s -> NoDup (registered s).
Proof.
  intros Hwf. unfold registered.
  apply NoDup_fmap_2_strong; [|apply NoDup_map_to_list].
  intros [n1 l1] [n2 l2] H1 H2 Heq. cbn in Heq. subst l2.
  apply elem_of_map_to_list in H1, H2.
  rewrite <- (Hwf _ _ H1), <- (Hwf _ _ H2). reflexivity.
Qed.


Lemma same_shape_refl (s : Store) : same_shape s s.
Proof. split; [reflexivity|]. intros l. split; reflexivity. Qed.

Lemma same_shape_trans (s1 s2 s3 : Store) :
  same_shape s1 s2 -> same_shape s2 s3 -> same_shape s1 s3.
Proof.
  intros [A1 H1] [A2 H2]. split; [congruence|].
  intros l. destruct (H1 l), (H2 l). split; congruence.
Qed.


Lemma same_shape_wf (s s' : Store) :
  same_shape s s' -> ledger_wf s -> ledger_wf s'.
Proof.
  intros [Ha Hh] Hwf n l Hl. rewrite Ha in Hl.
  destruct (Hh l) as [-> _]. apply Hwf, Hl.
Qed.




Lemma record_entry_unfold (e : JournalEntry) :
  record_entry e =
  if negb (is_balanced e) then
    raise (ValueError
      "Journal entry must be balanced (total debits must equal total credits).")
  else (for_each (lines e) post_line ;; append_entry e).
Proof. reflexivity. Qed.




End AccountingEquation.

Section LedgerInvariant.

(** The invariant [ledger_wf] is the one [add_account] maintains. *)
Lemma ledger_wf_empty (h : loc -> Account) :
  ledger_wf {| heap := h;
               ledger_system := {| accounts := ∅; journal_entries := [] |} |}.
Proof. intros n l Hl. cbn in Hl. rewrite lookup_empty in Hl. discriminate. Qed.

Lemma add_account_wf (s s' : Store) (a : loc) (r : outcome unit) :
  ledger_wf s -> add_account a s = (r, s') -> ledger_wf s'.
Proof.
  intros Hwf Hrun. unfold add_account, bind, get in Hrun.
  destruct (accounts (ledger_system s) !! ledger.name (heap s a)) eqn:Hlook.
  - injection Hrun as _ <-. exact Hwf.
  - injection Hrun as _ <-. intros n l Hl. cbn in Hl |- *.
    destruct (decide (ledger.name (heap s a) = n)) as [<-|Hne].
    + rewrite lookup_insert_eq in Hl. injection Hl as <-. reflexivity.
    + rewrite lookup_insert_ne in Hl by exact Hne. apply Hwf, Hl.
Qed.


(** Whatever its outcome, [record_entry] keeps the dict and the name and
    type of every account object, hence the invariant. *)
Lemma apply_transaction_shape (s s' : Store) (self : loc) (amount : Decimal)
    (is_debit : bool) (r : outcome unit) :
  _apply_transaction self amount is_debit s = (r, s') -> same_shape s s'.
Proof.
  intros Hrun. destruct (ltb amount zero2) eqn:Hlt.
  - rewrite apply_transaction_raise in Hrun by exact Hlt.
    injection Hrun as _ <-. apply same_shape_refl.
  - rewrite apply_transaction_ok in Hrun by exact Hlt.
    injection Hrun as _ <-. split; [reflexivity|].
    intros l. cbn [heap]. unfold heap_update.
    destruct (Nat.eqb_spec l self) as [->|_]; split; reflexivity.
Qed.

Lemma post_lines_shape (ls : list JournalEntryLine) (s s' : Store)
    (r : outcome unit) :
  for_each ls post_line s = (r, s') -> same_shape s s'.
Proof.
  revert s. induction ls as [|line ls IH]; intros s Hrun.
  - injection Hrun as _ <-. apply same_shape_refl.
  - cbn [for_each] in Hrun. unfold bind in Hrun.
    destruct (post_line line s) as [r1 s1] eqn:Hstep.
    assert (Hsh : same_shape s s1).
    { unfold post_line, debit, credit in Hstep.
      destruct (entry_type line);
        eapply apply_transaction_shape; exact Hstep. }
    destruct r1 as [[]|ex].
    + eapply same_shape_trans; [exact Hsh | apply IH, Hrun].
    + injection Hrun as _ <-. exact Hsh.
Qed.

Lemma record_entry_wf (s s' : Store) (e : JournalEntry) (r : outcome unit) :
  ledger_wf s -> record_entry e s = (r, s') -> ledger_wf s'.
Proof.
  intros Hwf Hrun. apply (same_shape_wf s s'); [|exact Hwf].
  rewrite record_entry_unfold in Hrun.
  destruct (is_balanced e); cbn [negb] in Hrun.
  - unfold bind in Hrun.
    destruct (for_each (lines e) post_line s) as [r1 s1] eqn:Hloop.
    apply post_lines_shape in Hloop. destruct r1 as [[]|ex].
    + injection Hrun as _ <-. destruct Hloop as [Ha Hh].
      split; [exact Ha | exact Hh].
    + injection Hrun as _ <-. exact Hloop.
  - injection Hrun as _ <-. apply same_shape_refl.
Qed.

(** The scenarios of the design notes, run on the model. *)
Example cash_debit_then_credit :
  let s := {| heap := fun _ => Account_init "Cash" ASSET (D 1000 0);
              ledger_system := {| accounts := ∅; journal_entries := [] |} |} in
  let s1 := snd (debit 0%nat (D 200 0) s) in
  let s2 := snd (credit 0%nat (D 300 0) s1) in
  balance (heap s1 0%nat) = D 1200 0 /\ balance (heap s2 0%nat) = D 900 0.
Proof. split; reflexivity. Qed.

Example balanced_sale_recorded :
  let s := {| heap := fun l =>
                match l with
                | 0%nat => Account_init "Cash" ASSET (D 1000 0)
                | _ => Account_init "Sales Revenue" INCOME zero2
                end;
              ledger_system :=
                {| accounts := {[ "Cash" := 0%nat; "Sales Revenue" := 1%nat ]};
                   journal_entries := [] |} |} in
  let e := {| jdate := {| year := 2025; month := 5; day := 14 |};
              description := "Test Sale";
              lines := [ {| account := 0%nat; amount := D 50000 (-2);
                            entry_type := DEBIT |};
                         {| account := 1%nat; amount := D 50000 (-2);
                            entry_type := CREDIT |} ];
              entry_id := "e1" |} in
  let r := record_entry e s in
  is_balanced e = true /\ fst r = Ok tt /\
  balance (heap (snd r) 0%nat) = D 150000 (-2) /\
  balance (heap (snd r) 1%nat) = D 50000 (-2) /\
  journal_entries (ledger_system (snd r)) = [e].
Proof. vm_compute. repeat split. Qed.

End LedgerInvariant.

(** ** The purchase-order workflow *)

Section Validation.

Local Open Scope Q_scope.

Lemma process_item_well_formed (inv : Inventory) (idx : nat) (it : ItemData) :
  well_formed_item it ->
  exists item,
    process_item inv idx it = inr item /\
    asks_for it (item_product_id item) (quantity item).
Proof.
  intros (pid & q & up & -> & Hq & Hup).
  unfold process_item. cbn [data_product_id data_quantity data_unit_price].
  destruct (Z.leb_spec q 0) as [Hle|_]; [lia|].
  rewrite (proj2 (nonnegative_iff up) Hup).
  eexists. split; [reflexivity|]. split; reflexivity.
Qed.

Lemma process_items_well_formed (inv : Inventory) (l : list ItemData) :
  forall (idx : nat) (acc : list Item),
  Forall well_formed_item l ->
  exists its,
    process_items inv idx l acc = inr (acc ++ its) /\
    Forall2 (fun it item => asks_for it (item_product_id item) (quantity item))
            l its.
Proof.
  induction l as [|it l IH]; intros idx acc Hwf.
  - exists []. rewrite app_nil_r. split; [reflexivity | constructor].
  - apply Forall_cons in Hwf as [Hit Hl].
    destruct (process_item_well_formed inv idx it Hit) as (item & Hp & Hask).
    destruct (IH (S idx) (acc ++ [item]) Hl) as (its & Hps & Hall).
    exists (item :: its). cbn [process_items]. rewrite Hp, Hps.
    rewrite <- app_assoc. split; [reflexivity|].
    constructor; assumption.
Qed.

Lemma check_items_fails (inv : Inventory) (its : list Item) :
  Exists (fun item =>
            Inventory_check_stock inv (item_product_id item) (quantity item)
            = false) its ->
  exists pid, check_items inv its = Some (insufficient_stock pid).
Proof.
  induction its as [|item its IH]; intros Hex.
  - inversion Hex.
  - cbn [check_items].
    destruct (Inventory_check_stock inv (item_product_id item) (quantity item))
      eqn:Hc; cbn [negb].
    + apply IH. inversion Hex as [? ? Hhd|? ? Htl]; subst; [congruence|exact Htl].
    + exists (item_product_id item). reflexivity.
Qed.

Lemma asked_item_processed (l : list ItemData) (its : list Item)
    (it : ItemData) (pid : string) (q : Z) :
  Forall2 (fun it item => asks_for it (item_product_id item) (quantity item))
          l its ->
  it ∈ l -> asks_for it pid q ->
  exists item, item ∈ its /\ item_product_id item = pid /\ quantity item = q.
Proof.
  intros Hall Hin [Hp Hq].
  induction Hall as [|it' item l' its' [Hp' Hq'] _ IH].
  - inversion Hin.
  - apply elem_of_cons in Hin as [->|Hin].
    + exists item. split; [left|]. split; congruence.
    + destruct (IH Hin) as (item' & Hin' & Hpq).
      exists item'. split; [right; exact Hin' | exact Hpq].
Qed.

(** A well-formed request with an item that fails the availability check
    ends with the insufficient-stock result before anything is changed. *)
Lemma accept_rejects_unavailable (order_data : OrderData) (l : list ItemData)
    (dt : DatetimeModule) (coll : option Collection) (ou eu : string)
    (w : World) (it : ItemData) (pid : string) (q : Z) :
  well_formed order_data l ->
  it ∈ l -> asks_for it pid q ->
  Inventory_check_stock (inventory_system w) pid q = false ->
  exists pid',
    accept_purchase_order order_data dt coll ou eu w
    = (Ok (insufficient_stock pid'), w).
Proof.
  intros (Hc & Hitems & Hne & Hwf) Hin Hask Hcheck.
  destruct (process_items_well_formed (inventory_system w) l 0 [] Hwf)
    as (its & Hps & Hall).
  cbn [app] in Hps.
  destruct (asked_item_processed _ _ _ _ _ Hall Hin Hask)
    as (item & Hitem & <- & <-).
  destruct (check_items_fails (inventory_system w) its) as (pid' & Hchk).
  { apply list.Exists_exists. exists item. split; [exact Hitem | exact Hcheck]. }
  exists pid'.
  unfold accept_purchase_order.
  destruct Hc as [customer ->]. rewrite Hitems.
  destruct l as [|it0 l0]; [contradiction|].
  unfold bind, get. rewrite Hps. cbn [items]. rewrite Hchk. reflexivity.
Qed.

End Validation.

Section Rejection.

(** C7: a well-formed request with an item that asks for more than the
    stock of its product ends with the insufficient-stock error result,
    and the world (stock of every product, every account object, the
    ledger) is returned as it was. *)
Theorem insufficient_stock_rejected (order_data : OrderData)
    (l : list ItemData) (dt : DatetimeModule) (coll : option Collection)
    (ou eu : string) (w : World) (it : ItemData) (pid : string) (q : Z)
    (p : Product) :
  well_formed order_data l ->
  it ∈ l -> asks_for it pid q ->
  products (inventory_system w) !! pid = Some p -> stock p < q ->
  exists pid',
    accept_purchase_order order_data dt coll ou eu w
    = (Ok (insufficient_stock pid'), w).
Proof.
  intros Hwf Hin Hask Hp Hlt.
  apply (accept_rejects_unavailable order_data l dt coll ou eu w it pid q);
    try assumption.
  unfold Inventory_check_stock, get_product. rewrite Hp.
  unfold Product_check_stock. rewrite Z.geb_leb. apply Z.leb_gt. exact Hlt.
Qed.

Lemma single_item_well_formed (customer pid : string) (q : Z)
    (up : Decimal) (d : DateValue) :
  0 < q -> (0 <= dval up)%Q ->
  well_formed (single_item_order customer pid q up d)
    [ {| data_product_id := Some pid; data_quantity := Some (QInt q);
         data_unit_price := Some up |} ].
Proof.
  intros Hq Hup. split; [eexists; reflexivity|].
  split; [reflexivity|]. split; [discriminate|].
  constructor; [|constructor]. exists pid, q, up. auto.
Qed.

(** Twenty-one laptops asked of a shop that holds twenty. *)
Lemma insufficient_stock_rejected_witness :
  exists pid',
    accept_purchase_order Demo.too_many_laptops Demo.dt_module None "o1" "e1"
      Demo.world
    = (Ok (insufficient_stock pid'), Demo.world).
Proof.
  eapply (insufficient_stock_rejected Demo.too_many_laptops _
            Demo.dt_module None "o1" "e1" Demo.world _ "prod_abc" 21
            Demo.product1).
  - apply single_item_well_formed; [lia | vm_compute; discriminate].
  - left.
  - split; reflexivity.
  - vm_compute. reflexivity.
  - vm_compute. reflexivity.
Defined.

(** C10: for a product id the inventory does not hold, [check_stock]
    answers [False] for every quantity; a well-formed request that names
    such an id ends with the insufficient-stock error result, the world
    returned as it was. *)
Theorem unknown_product_rejected (w : World) (pid : string) :
  products (inventory_system w) !! pid = None ->
  (forall q, Inventory_check_stock (inventory_system w) pid q = false) /\
  (forall order_data l dt coll ou eu it q,
     well_formed order_data l -> it ∈ l -> asks_for it pid q ->
     exists pid',
       accept_purchase_order order_data dt coll ou eu w
       = (Ok (insufficient_stock pid'), w)).
Proof.
  intros Hnone.
  assert (Hcheck : forall q,
             Inventory_check_stock (inventory_system w) pid q = false).
  { intros q. unfold Inventory_check_stock, get_product.
    rewrite Hnone. reflexivity. }
  split; [exact Hcheck|].
  intros order_data l dt coll ou eu it q Hwf Hin Hask.
  apply (accept_rejects_unavailable order_data l dt coll ou eu w it pid q);
    auto.
Qed.

(** The script's first sample order, whose second product id
    ["prod_xyz1"] is not in the inventory. *)
Lemma unknown_product_rejected_witness :
  products (inventory_system Demo.world) !! "prod_xyz1" = None /\
  Inventory_check_stock (inventory_system Demo.world) "prod_xyz1" 2 = false /\
  exists pid',
    accept_purchase_order Demo.sample_order_1 Demo.dt_module None "o1" "e1"
      Demo.world
    = (Ok (insufficient_stock pid'), Demo.world).
Proof.
  assert (Hnone : products (inventory_system Demo.world) !! "prod_xyz1" = None)
    by (vm_compute; reflexivity).
  destruct (unknown_product_rejected Demo.world "prod_xyz1" Hnone)
    as [Hcheck Hrej].
  split; [exact Hnone|]. split; [apply Hcheck|].
  eapply (Hrej Demo.sample_order_1 _ Demo.dt_module None "o1" "e1" _ 2).
  - split; [eexists; reflexivity|]. split; [reflexivity|].
    split; [discriminate|].
    repeat constructor.
    + exists "prod_abc1", 1, (D 12000 (-1)).
      split; [reflexivity|]. split; [lia | vm_compute; discriminate].
    + exists "prod_xyz1", 2, (D 250 (-1)).
      split; [reflexivity|]. split; [lia | vm_compute; discriminate].
  - right. left.
  - split; reflexivity.
Defined.

(** C5: with no "Cash" account in the ledger the posting step fails
    after the stock was taken; the call returns the error result and the
    stock stays at 98 instead of going back to 100. *)
Theorem posting_failure_keeps_stock_taken :
  let r := accept_purchase_order Demo.two_mice Demo.dt_module None "o1" "e1"
             Demo.world_without_accounts in
  fst r = Ok (error ("Failed to record financial transaction: " +:+
                     "Account with name 'Cash' not found.")) /\
  stock_of Demo.world_without_accounts "prod_xyz" = Some 100 /\
  stock_of (snd r) "prod_xyz" = Some 98.
Proof. vm_compute. repeat split. Qed.

End Rejection.

Section Posting.

Local Open Scope Q_scope.

Lemma post_lines_ok (ls : list JournalEntryLine) (s : Store) :
  Forall (fun line => 0 <= dval (amount line)) ls ->
  exists s',
    for_each ls post_line s = (Ok tt, s') /\
    ledger_system s' = ledger_system s.
Proof.
  intros Hls. revert s. induction Hls as [|line ls Hline _ IH]; intros s.
  - exists s. split; reflexivity.
  - cbn [for_each]. unfold bind.
    assert (Hstep : exists s1, post_line line s = (Ok tt, s1) /\
                               ledger_system s1 = ledger_system s).
    { apply nonnegative_iff in Hline.
      unfold post_line, debit, credit.
      destruct (entry_type line); rewrite apply_transaction_ok by exact Hline;
        eexists; split; reflexivity. }
    destruct Hstep as (s1 & -> & Hl1).
    destruct (IH s1) as (s' & -> & Hl'). exists s'.
    split; [reflexivity | congruence].
Qed.

(** A balanced entry whose amounts are not negative is recorded. *)
Lemma record_entry_ok (e : JournalEntry) (s : Store) :
  is_balanced e = true ->
  Forall (fun line => 0 <= dval (amount line)) (lines e) ->
  exists s',
    record_entry e s = (Ok tt, s') /\
    accounts (ledger_system s') = accounts (ledger_system s) /\
    journal_entries (ledger_system s') =
      journal_entries (ledger_system s) ++ [e].
Proof.
  intros Hb Hls. rewrite record_entry_unfold, Hb. cbn [negb]. unfold bind.
  destruct (post_lines_ok (lines e) s Hls) as (s1 & -> & Hl).
  eexists. split; [reflexivity|]. cbn. rewrite Hl. split; reflexivity.
Qed.

Lemma sale_entry_balanced (d : date) (ou eu : string) (total cogs_amt : Decimal)
    (cash revenue cogs inventory : loc) :
  is_balanced (sale_entry_of d ou eu total cogs_amt cash revenue cogs inventory)
  = true.
Proof. apply is_balanced_totals. cbn. ring. Qed.

Lemma bind_get_account {A} (n : string) (l : loc) (k : loc -> M Store A)
    (s : Store) :
  accounts (ledger_system s) !! n = Some l ->
  bind (get_account n) k s = k l s.
Proof.
  intros Hl. unfold get_account, bind, get. rewrite Hl. reflexivity.
Qed.

Lemma bind_add_line {A} (e : JournalEntry) (a : loc) (amt : Decimal)
    (t : JournalEntryLineType) (k : JournalEntry -> M Store A) (s : Store) :
  leb amt zero2 = false ->
  bind (lift_outcome (add_line e a amt t)) k s =
  k {| jdate := jdate e; description := description e;
       lines := lines e ++ [ {| account := a; amount := amt;
                                entry_type := t |} ];
       entry_id := entry_id e |} s.
Proof.
  intros Hpos. unfold bind, lift_outcome, add_line, JournalEntryLine_init.
  rewrite Hpos. reflexivity.
Qed.

(** With the four accounts registered and positive totals, step 6 builds
    the four-line entry and hands it to [record_entry]. *)
Lemma post_sale_records (o : Order) (total cogs_amt : Decimal) (eu : string)
    (s : Store) (cash revenue cogs inventory : loc) :
  accounts (ledger_system s) !! "Cash" = Some cash ->
  accounts (ledger_system s) !! "Sales Revenue" = Some revenue ->
  accounts (ledger_system s) !! "Cost of Goods Sold" = Some cogs ->
  accounts (ledger_system s) !! "Inventory" = Some inventory ->
  leb total zero2 = false -> leb cogs_amt zero2 = false ->
  post_sale o total cogs_amt eu s =
  (record_entry (sale_entry_of (order_date o) (order_id o) eu total cogs_amt
                   cash revenue cogs inventory) ;;
   ret None) s.
Proof.
  intros Hcash Hrev Hcogs Hinv Ht Hc.
  assert (Hgt : gtb cogs_amt zero2 = true).
  { apply gtb_spec, Qnot_le_lt. intros H. apply leb_spec in H. congruence. }
  unfold post_sale. cbv zeta.
  rewrite (bind_get_account _ _ _ _ Hcash); cbv beta.
  rewrite (bind_get_account _ _ _ _ Hrev); cbv beta.
  rewrite !(bind_add_line _ _ _ _ _ _ Ht); cbv beta.
  rewrite Hgt.
  unfold bind at 1.
  rewrite (bind_get_account _ _ _ _ Hcogs); cbv beta.
  rewrite (bind_get_account _ _ _ _ Hinv); cbv beta.
  rewrite (bind_add_line _ _ _ _ _ _ Hc); cbv beta.
  unfold lift_outcome, add_line, JournalEntryLine_init. rewrite Hc.
  cbn [lines jdate description entry_id JournalEntry_init app].
  fold (sale_entry_of (order_date o) (order_id o) eu total cogs_amt
          cash revenue cogs inventory).
  rewrite sale_entry_balanced. reflexivity.
Qed.

End Posting.

Section Scenario.

Local Open Scope Q_scope.

Lemma update_stock_ok (w : World) (pid : string) (p : Product) (q : Z) :
  products (inventory_system w) !! pid = Some p -> (q <= stock p)%Z ->
  on_inventory (Inventory_update_stock pid q) w =
  (Ok tt,
   {| store := store w;
      inventory_system :=
        {| products := <[pid := take p q]> (products (inventory_system w)) |} |}).
Proof.
  intros Hp Hq.
  unfold on_inventory, zoom, Inventory_update_stock, bind, get, get_product.
  rewrite Hp. unfold lift_outcome, Product_update_stock, Product_check_stock.
  rewrite Z.geb_leb, (proj2 (Z.leb_le _ _) Hq). reflexivity.
Qed.

(** C6, as the code has it: two units at 25.00 of a product that costs 10.00, in a
    shop that holds them and a ledger with the four accounts, give a total
    of 50.00 and a cost of 20.00; ONE balanced journal entry of four lines
    (the sale pair, then the cost pair) is recorded, the stock goes down by
    two and the call returns success. *)
Theorem sale_posts_one_entry (w : World) (p : Product)
    (customer pid : string) (d : DateValue) (dt : DatetimeModule)
    (coll : option Collection) (ou eu : string)
    (cash revenue cogs inventory : loc) :
  products (inventory_system w) !! pid = Some p ->
  cost_price p = D 1000 (-2) ->
  (2 <= stock p)%Z ->
  accounts (ledger_system (store w)) !! "Cash" = Some cash ->
  accounts (ledger_system (store w)) !! "Sales Revenue" = Some revenue ->
  accounts (ledger_system (store w)) !! "Cost of Goods Sold" = Some cogs ->
  accounts (ledger_system (store w)) !! "Inventory" = Some inventory ->
  (forall e, coll <> Some (InsertRaises e)) ->
  let entry :=
    sale_entry_of (resolve_date dt d) ou eu (D 5000 (-2)) (D 2000 (-2))
      cash revenue cogs inventory in
  exists s',
    accept_purchase_order
      (single_item_order customer pid 2 (D 2500 (-2)) d) dt coll ou eu w =
    (Ok {| status := "success"; message := "Purchase order accepted.";
           result_order_id := Some ou;
           result_total_amount := Some (D 5000 (-2)) |},
     {| store := s';
        inventory_system :=
          {| products := <[pid := take p 2]> (products (inventory_system w)) |} |})
    /\ is_balanced entry = true
    /\ record_entry entry (store w) = (Ok tt, s')
    /\ journal_entries (ledger_system s') =
         journal_entries (ledger_system (store w)) ++ [entry].
Proof.
  intros Hp Hcost Hstock Hcash Hrev Hcogs Hinv Hcoll entry.
  pose proof (sale_entry_balanced (resolve_date dt d) ou eu (D 5000 (-2))
                (D 2000 (-2)) cash revenue cogs inventory) as Hbal.
  fold entry in Hbal.
  destruct (record_entry_ok entry (store w) Hbal) as (s' & Hrec & _ & Hje).
  { repeat constructor; vm_compute; discriminate. }
  exists s'. split; [|auto].
  unfold accept_purchase_order, single_item_order.
  cbn [data_customer_id data_items data_order_date data_customer_name
       data_shipping_address].
  unfold bind at 1. unfold get at 1.
  cbn [process_items process_item data_product_id data_quantity
       data_unit_price app].
  change (2 <=? 0)%Z with false.
  change (ltb (D 2500 (-2)) zero2) with false. cbv iota.
  unfold get_product_cost, get_product. rewrite Hp, Hcost.
  cbn [items check_items item_product_id quantity].
  unfold Inventory_check_stock, get_product, Product_check_stock.
  rewrite Hp, Z.geb_leb, (proj2 (Z.leb_le _ _) Hstock).
  cbn [negb for_each].
  unfold bind at 1. unfold bind at 1. cbn [item_product_id quantity].
  rewrite (update_stock_ok w pid p 2 Hp Hstock).
  unfold ret at 1. cbv beta iota.
  change (calculate_total _) with (D 5000 (-2)).
  change (calculate_total_cost_of_goods_sold _) with (D 2000 (-2)).
  assert (Hpost :
    try_except
      (on_ledger
         (post_sale
            {| order_id := ou; customer_id := customer;
               items := [ {| item_product_id := pid; quantity := 2;
                             unit_price := D 2500 (-2);
                             unit_cost := D 1000 (-2) |} ];
               customer_name := None; shipping_address := None;
               order_date := resolve_date dt d |}
            (D 5000 (-2)) (D 2000 (-2)) eu))
      (fun e => ret (Some (error ("Failed to record financial transaction: "
                                  +:+ str_exn e))))
      {| store := store w;
         inventory_system :=
           {| products := <[pid := take p 2]> (products (inventory_system w)) |} |}
    = (Ok None,
       {| store := s';
          inventory_system :=
            {| products := <[pid := take p 2]> (products (inventory_system w)) |} |})).
  { unfold try_except, on_ledger, zoom. cbn [store inventory_system].
    rewrite (post_sale_records _ _ _ _ _ cash revenue cogs inventory)
      by (assumption || reflexivity).
    cbn [order_date order_id]. fold entry.
    unfold bind. rewrite Hrec. reflexivity. }
  destruct coll as [[|e]|].
  - unfold bind. rewrite Hpost. reflexivity.
  - exfalso. apply (Hcoll e). reflexivity.
  - unfold bind. rewrite Hpost. reflexivity.
Qed.

(** The order of two mice in the shop of the script. *)
Lemma sale_posts_one_entry_witness :
  let entry :=
    sale_entry_of (today Demo.dt_module) "o1" "e1" (D 5000 (-2)) (D 2000 (-2))
      0%nat 6%nat 7%nat 2%nat in
  exists s',
    accept_purchase_order Demo.two_mice Demo.dt_module None "o1" "e1"
      Demo.world =
    (Ok {| status := "success"; message := "Purchase order accepted.";
           result_order_id := Some "o1";
           result_total_amount := Some (D 5000 (-2)) |},
     {| store := s';
        inventory_system :=
          {| products := <["prod_xyz" := take Demo.product2 2]>
                           (products (inventory_system Demo.world)) |} |})
    /\ is_balanced entry = true
    /\ record_entry entry (store Demo.world) = (Ok tt, s')
    /\ journal_entries (ledger_system s') =
         journal_entries (ledger_system (store Demo.world)) ++ [entry].
Proof.
  apply (sale_posts_one_entry Demo.world Demo.product2 "cust_1236" "prod_xyz"
           DateOther Demo.dt_module None "o1" "e1" 0%nat 6%nat 7%nat 2%nat).
  - vm_compute. reflexivity.
  - reflexivity.
  - vm_compute. discriminate.
  - vm_compute. reflexivity.
  - vm_compute. reflexivity.
  - vm_compute. reflexivity.
  - vm_compute. reflexivity.
  - intros e. discriminate.
Defined.

(** C6, counterexample: the order of two mice leaves one new entry in
    the ledger, not two. *)
Lemma sale_does_not_commit_two_entries :
  ~ commits_two_entries Demo.world
      (snd (accept_purchase_order Demo.two_mice Demo.dt_module None "o1" "e1"
              Demo.world)).
Proof.
  intros (e1 & e2 & _ & _ & H).
  apply (f_equal length) in H. vm_compute in H. discriminate H.
Qed.

End Scenario.

(** ** Order independence of Decimal sums *)

Section DecimalOrder.

Lemma rescale_add (a b : Decimal) (e : Z) :
  e <= Z.min (expo a) (expo b) ->
  rescale e (add a b) = rescale e a + rescale e b.
Proof.
  intros He. unfold add, rescale; cbn [coef expo].
  set (m := Z.min (expo a) (expo b)) in *.
  rewrite Z.mul_add_distr_r, <- !Z.mul_assoc, <- !Z.pow_add_r by lia.
  f_equal; f_equal; f_equal; lia.
Qed.

Lemma add_comm (a b : Decimal) : add a b = add b a.
Proof.
  unfold add. rewrite (Z.min_comm (expo b) (expo a)). f_equal. lia.
Qed.

Lemma add_assoc (a b c : Decimal) : add (add a b) c = add a (add b c).
Proof.
  unfold add at 1 3.
  replace (expo (add a b)) with (Z.min (expo a) (expo b)) by reflexivity.
  replace (expo (add b c)) with (Z.min (expo b) (expo c)) by reflexivity.
  rewrite Z.min_assoc.
  f_equal. rewrite !rescale_add by lia. lia.
Qed.

Lemma fold_add_permutation (xs ys : list Decimal) :
  xs ≡ₚ ys -> forall acc, fold_left add xs acc = fold_left add ys acc.
Proof.
  induction 1 as [|x xs ys _ IH|x y xs|xs ys zs _ IH1 _ IH2]; intros acc;
    cbn [fold_left].
  - reflexivity.
  - apply IH.
  - f_equal. rewrite !add_assoc, (add_comm y x). reflexivity.
  - rewrite IH1. apply IH2.
Qed.

(** The result of Python's [sum] over [Decimal]s, coefficient and
    exponent included, is the same for every order of the summands. *)
Theorem sum_permutation (xs ys : list Decimal) :
  xs ≡ₚ ys -> Dec.sum xs = Dec.sum ys.
Proof. intros Hp. apply fold_add_permutation, Hp. Qed.

Lemma sum_permutation_witness :
  let xs := [D 150 (-2); D 1 3; D 7 0] in
  let ys := [D 7 0; D 150 (-2); D 1 3] in
  xs ≡ₚ ys /\ Dec.sum xs = Dec.sum ys /\ Dec.sum xs = D 100850 (-2).
Proof.
  intros xs ys.
  assert (Hp : xs ≡ₚ ys).
  { apply (Permutation_app_comm [D 150 (-2); D 1 3] [D 7 0]). }
  split; [exact Hp|]. split; [apply (sum_permutation xs ys Hp)|reflexivity].
Defined.

Local Open Scope Q_scope.


Lemma qsum_app (xs ys : list Decimal) : qsum (xs ++ ys) == qsum xs + qsum ys.
Proof.
  induction xs as [|x xs IH]; cbn [app qsum]; [ring|]. rewrite IH. ring.
Qed.

End DecimalOrder.

(** ** The statement classes *)

Section Statements.

Local Open Scope Q_scope.


Lemma values_sum_empty : values_sum ∅ = of_int 0.
Proof. unfold values_sum. rewrite map_to_list_empty. reflexivity. Qed.











End Statements.

(** ** The ledger as a whole *)

Section LedgerCalls.

Local Open Scope Q_scope.

(** X6: registering an account under a name that is free returns, touches
    neither the account objects nor the committed entries, and from then
    on [get_account] finds that object under its name while every other
    name resolves as before. *)
Theorem add_account_then_get (s : Store) (a : loc) :
  accounts (ledger_system s) !! ledger.name (heap s a) = None ->
  exists s',
    add_account a s = (Ok tt, s') /\
    heap s' = heap s /\
    journal_entries (ledger_system s') = journal_entries (ledger_system s) /\
    get_account (ledger.name (heap s a)) s' = (Ok a, s') /\
    (forall n, n <> ledger.name (heap s a) -> get_account n s' =
       (fst (get_account n s), s')).
Proof.
  intros Hfree. unfold add_account, bind, get. rewrite Hfree.
  eexists. split; [reflexivity|]. cbn [heap ledger_system journal_entries].
  split; [reflexivity|]. split; [reflexivity|]. split.
  - unfold get_account, bind, get. cbn [ledger_system accounts].
    rewrite lookup_insert_eq. reflexivity.
  - intros n Hn. unfold get_account, bind, get. cbn [ledger_system accounts].
    rewrite lookup_insert_ne by congruence.
    destruct (accounts (ledger_system s) !! n); reflexivity.
Qed.

Lemma add_account_then_get_witness :
  exists s',
    add_account 0%nat Demo.empty_ledger = (Ok tt, s') /\
    heap s' = heap Demo.empty_ledger /\
    journal_entries (ledger_system s') =
      journal_entries (ledger_system Demo.empty_ledger) /\
    get_account (ledger.name (heap Demo.empty_ledger 0%nat)) s' = (Ok 0%nat, s') /\
    (forall n, n <> ledger.name (heap Demo.empty_ledger 0%nat) ->
       get_account n s' = (fst (get_account n Demo.empty_ledger), s')).
Proof.
  apply (add_account_then_get Demo.empty_ledger 0%nat). reflexivity.
Defined.

(** X7: registering an account whose name is taken raises, whichever
    object asks, and the store is left as it was, so the name keeps
    resolving to the object registered first. *)
Theorem add_account_duplicate (s : Store) (a first : loc) :
  accounts (ledger_system s) !! ledger.name (heap s a) = Some first ->
  add_account a s =
    (Raise (ValueError ("Account with name '" +:+ ledger.name (heap s a) +:+
                        "' already exists.")), s) /\
  get_account (ledger.name (heap s a)) s = (Ok first, s).
Proof.
  intros Htaken. unfold add_account, get_account, bind, get.
  rewrite Htaken. split; reflexivity.
Qed.

Lemma add_account_duplicate_witness :
  add_account 0%nat Demo.main_ledger =
    (Raise (ValueError ("Account with name '" +:+
                        ledger.name (heap Demo.main_ledger 0%nat) +:+
                        "' already exists.")), Demo.main_ledger) /\
  get_account (ledger.name (heap Demo.main_ledger 0%nat)) Demo.main_ledger
  = (Ok 0%nat, Demo.main_ledger).
Proof.
  apply (add_account_duplicate Demo.main_ledger 0%nat 0%nat).
  vm_compute. reflexivity.
Defined.

Lemma apply_transaction_ledger (s s' : Store) (self : loc) (amount : Decimal)
    (is_debit : bool) (r : outcome unit) :
  _apply_transaction self amount is_debit s = (r, s') ->
  ledger_system s' = ledger_system s.
Proof.
  intros Hrun. destruct (ltb amount zero2) eqn:Hlt.
  - rewrite apply_transaction_raise in Hrun by exact Hlt.
    injection Hrun as _ <-. reflexivity.
  - rewrite apply_transaction_ok in Hrun by exact Hlt.
    injection Hrun as _ <-. reflexivity.
Qed.

Lemma post_lines_ledger (ls : list JournalEntryLine) (s s' : Store)
    (r : outcome unit) :
  for_each ls post_line s = (r, s') -> ledger_system s' = ledger_system s.
Proof.
  revert s. induction ls as [|line ls IH]; intros s Hrun.
  - injection Hrun as _ <-. reflexivity.
  - cbn [for_each] in Hrun. unfold bind in Hrun.
    destruct (post_line line s) as [r1 s1] eqn:Hstep.
    assert (Hl : ledger_system s1 = ledger_system s).
    { unfold post_line, debit, credit in Hstep.
      destruct (entry_type line);
        eapply apply_transaction_ledger; exact Hstep. }
    destruct r1 as [[]|ex].
    + rewrite <- Hl. apply IH, Hrun.
    + injection Hrun as _ <-. exact Hl.
Qed.

(** What a call on the ledger can change: balances, the dict (by one
    new name) and the committed entries (by appending). *)
Lemma run_call_shape (c : LedgerCall) (s : Store) :
  (forall l, ledger.name (heap (snd (run_call c s)) l) = ledger.name (heap s l) /\
             account_type (heap (snd (run_call c s)) l) = account_type (heap s l)) /\
  (ledger_wf s -> ledger_wf (snd (run_call c s))) /\
  (exists more, journal_entries (ledger_system (snd (run_call c s))) =
                journal_entries (ledger_system s) ++ more).
Proof.
  destruct c as [a|e]; cbn [run_call].
  - destruct (add_account a s) as [r s'] eqn:Hrun. cbn [snd].
    split; [|split].
    + unfold add_account, bind, get in Hrun.
      destruct (accounts (ledger_system s) !! ledger.name (heap s a)) as [o|];
        injection Hrun as _ <-; intros l; split; reflexivity.
    + intros Hwf. eapply add_account_wf; eassumption.
    + unfold add_account, bind, get in Hrun.
      destruct (accounts (ledger_system s) !! ledger.name (heap s a));
        injection Hrun as _ <-; exists []; cbn; rewrite app_nil_r; reflexivity.
  - destruct (record_entry e s) as [r s'] eqn:Hrun. cbn [snd].
    split; [|split].
    + rewrite record_entry_unfold in Hrun.
      destruct (is_balanced e); cbn [negb] in Hrun.
      * unfold bind in Hrun.
        destruct (for_each (lines e) post_line s) as [r1 s1] eqn:Hloop.
        apply post_lines_shape in Hloop. destruct Hloop as [_ Hh].
        destruct r1 as [[]|ex]; injection Hrun as _ <-; exact Hh.
      * injection Hrun as _ <-. intros l. split; reflexivity.
    + intros Hwf. eapply record_entry_wf; eassumption.
    + rewrite record_entry_unfold in Hrun.
      destruct (is_balanced e); cbn [negb] in Hrun.
      * unfold bind in Hrun.
        destruct (for_each (lines e) post_line s) as [r1 s1] eqn:Hloop.
        apply post_lines_ledger in Hloop.
        destruct r1 as [[]|ex]; injection Hrun as _ <-.
        -- exists [e]. cbn. rewrite Hloop. reflexivity.
        -- exists []. rewrite Hloop, app_nil_r. reflexivity.
      * injection Hrun as _ <-. exists []. rewrite app_nil_r. reflexivity.
Qed.

(** X8: from a ledger whose dict files every account under its own name
    (an empty ledger does), any series of [add_account] and [record_entry]
    calls, returning or raising, keeps it so: no object is registered
    twice, no account object changes its name or type, and committed
    entries are only ever appended. *)
Theorem ledger_invariants (cs : list LedgerCall) (s : Store) :
  ledger_wf s ->
  let s' := after_calls cs s in
  ledger_wf s' /\ NoDup (registered s') /\
  (forall l, ledger.name (heap s' l) = ledger.name (heap s l) /\
             account_type (heap s' l) = account_type (heap s l)) /\
  (exists more, journal_entries (ledger_system s') =
                journal_entries (ledger_system s) ++ more).
Proof.
  cbv zeta. revert s. induction cs as [|c cs IH]; intros s Hwf.
  - cbn. split; [exact Hwf|]. split; [apply registered_NoDup, Hwf|].
    split; [intros l; split; reflexivity|].
    exists []. rewrite app_nil_r. reflexivity.
  - unfold after_calls. cbn [fold_left]. fold (after_calls cs (snd (run_call c s))).
    destruct (run_call_shape c s) as (Hh & Hwf' & more & Hj).
    destruct (IH _ (Hwf' Hwf)) as (W & N & Hh' & more' & Hj').
    split; [exact W|]. split; [exact N|]. split.
    + intros l. destruct (Hh l), (Hh' l). split; congruence.
    + exists (more ++ more'). rewrite Hj', Hj, app_assoc. reflexivity.
Qed.

(** The chart of accounts of the script followed by one sale entry. *)
Lemma ledger_invariants_witness :
  let cs := map CallAddAccount (seq 0 8) ++
            [CallAddAccount 0%nat;
             CallRecordEntry
               (sale_only_entry_of {| year := 2025; month := 5; day := 14 |}
                  "o1" "e1" (D 5000 (-2)) 0%nat 6%nat)] in
  let s' := after_calls cs Demo.empty_ledger in
  ledger_wf Demo.empty_ledger /\
  ledger_wf s' /\ NoDup (registered s') /\
  (forall l, ledger.name (heap s' l) = ledger.name (heap Demo.empty_ledger l) /\
             account_type (heap s' l) = account_type (heap Demo.empty_ledger l)) /\
  (exists more, journal_entries (ledger_system s') =
                journal_entries (ledger_system Demo.empty_ledger) ++ more).
Proof.
  intros cs s'.
  assert (Hwf : ledger_wf Demo.empty_ledger) by apply ledger_wf_empty.
  split; [exact Hwf|]. apply (ledger_invariants cs Demo.empty_ledger Hwf).
Defined.









End LedgerCalls.

(** ** Building journal entries *)

Section EntryBuilding.

Local Open Scope Q_scope.



Lemma positive_iff (amt : Decimal) : leb amt zero2 = false <-> 0 < dval amt.
Proof.
  rewrite <- not_true_iff_false, leb_spec, dval_zero2. split.
  - apply Qnot_le_lt.
  - apply Qlt_not_le.
Qed.

Lemma add_line_ok (e : JournalEntry) (a : loc) (amt : Decimal)
    (t : JournalEntryLineType) :
  leb amt zero2 = false ->
  add_line e a amt t =
  Ok {| jdate := jdate e; description := description e;
        lines := lines e ++ [ {| account := a; amount := amt;
                                 entry_type := t |} ];
        entry_id := entry_id e |}.
Proof.
  intros Hpos. unfold add_line, JournalEntryLine_init. rewrite Hpos.
  reflexivity.
Qed.

(** X11: [add_line] refuses an amount that is zero or negative; otherwise
    it returns the entry with the one new line at the end, the earlier
    lines, date, description and id as they were. *)
Theorem add_line_appends (e : JournalEntry) (a : loc) (amt : Decimal)
    (t : JournalEntryLineType) :
  (dval amt <= 0 ->
   add_line e a amt t =
   Raise (ValueError "Journal entry line amount must be positive.")) /\
  (0 < dval amt ->
   exists e',
     add_line e a amt t = Ok e' /\
     lines e' = lines e ++ [ {| account := a; amount := amt;
                                entry_type := t |} ] /\
     jdate e' = jdate e /\ description e' = description e /\
     entry_id e' = entry_id e).
Proof.
  split.
  - intros Hle. unfold add_line, JournalEntryLine_init.
    assert (Hl : leb amt zero2 = true)
      by (apply leb_spec; rewrite dval_zero2; exact Hle).
    rewrite Hl. reflexivity.
  - intros Hpos. apply positive_iff in Hpos.
    rewrite add_line_ok by exact Hpos. eexists. repeat split.
Qed.







End EntryBuilding.

(** ** The inventory *)

Section InventoryFacts.

Lemma inventory_eta (inv : Inventory) : {| products := products inv |} = inv.
Proof. destruct inv. reflexivity. Qed.

Lemma take_take_back (p : Product) (q : Z) : take (take p q) (- q) = p.
Proof.
  destruct p as [pid n pr st c]. unfold take. cbn. f_equal. lia.
Qed.

Lemma inventory_update_ok (inv : Inventory) (pid : string) (p : Product)
    (q : Z) :
  get_product inv pid = Some p -> q <= stock p ->
  Inventory_update_stock pid q inv =
  (Ok tt, {| products := <[pid := take p q]> (products inv) |}).
Proof.
  intros Hp Hq. unfold Inventory_update_stock, bind, get. rewrite Hp.
  unfold lift_outcome, Product_update_stock, Product_check_stock.
  rewrite Z.geb_leb, (proj2 (Z.leb_le _ _) Hq). reflexivity.
Qed.

Lemma inventory_update_short (inv : Inventory) (pid : string) (p : Product)
    (q : Z) :
  get_product inv pid = Some p -> stock p < q ->
  Inventory_update_stock pid q inv =
  (Raise (ValueError
     ("Not enough stock for product " +:+ product_id p +:+
      ". Available: " +:+ pretty (stock p) +:+
      ", Requested: " +:+ pretty q)), inv).
Proof.
  intros Hp Hq. unfold Inventory_update_stock, bind, get. rewrite Hp.
  unfold lift_outcome, Product_update_stock, Product_check_stock.
  rewrite Z.geb_leb, (proj2 (Z.leb_gt _ _) Hq). reflexivity.
Qed.

(** X14: [Inventory.update_stock] returns exactly when [check_stock]
    answers [True] for the same product and quantity.  It then lowers the
    stock of that product by the quantity and changes nothing else; for an
    unknown product or a quantity above the stock it raises and the
    inventory is left as it was. *)
Theorem update_stock_effect (inv : Inventory) (pid : string) (q : Z) :
  (Inventory_check_stock inv pid q = true ->
   exists p inv',
     get_product inv pid = Some p /\
     Inventory_update_stock pid q inv = (Ok tt, inv') /\
     get_product inv' pid = Some (take p q) /\
     forall pid', pid' <> pid -> get_product inv' pid' = get_product inv pid') /\
  (Inventory_check_stock inv pid q = false ->
   exists msg, Inventory_update_stock pid q inv = (Raise (ValueError msg), inv)).
Proof.
  unfold Inventory_check_stock. split.
  - destruct (get_product inv pid) as [p|] eqn:Hp; [|discriminate].
    intros Hc. unfold Product_check_stock in Hc.
    rewrite Z.geb_leb in Hc. apply Z.leb_le in Hc.
    exists p. eexists. split; [reflexivity|].
    split; [apply (inventory_update_ok inv pid p q Hp Hc)|].
    unfold get_product. cbn [products]. split.
    + apply lookup_insert_eq.
    + intros pid' Hne. apply lookup_insert_ne. congruence.
  - destruct (get_product inv pid) as [p|] eqn:Hp.
    + intros Hc. unfold Product_check_stock in Hc.
      rewrite Z.geb_leb in Hc. apply Z.leb_gt in Hc.
      eexists. apply (inventory_update_short inv pid p q Hp Hc).
    + intros _. eexists. unfold Inventory_update_stock, bind, get.
      rewrite Hp. reflexivity.
Qed.

(** X15: taking a quantity from a product whose stock is not negative and
    then calling [update_stock] with the negated quantity (the rollback of
    the payment-failure branch) gives back the inventory as it was. *)
Theorem update_stock_rollback (inv : Inventory) (pid : string) (p : Product)
    (q : Z) :
  get_product inv pid = Some p -> q <= stock p -> 0 <= stock p ->
  exists inv1,
    Inventory_update_stock pid q inv = (Ok tt, inv1) /\
    Inventory_update_stock pid (- q) inv1 = (Ok tt, inv).
Proof.
  intros Hp Hq Hs. eexists. split.
  - apply (inventory_update_ok inv pid p q Hp Hq).
  - rewrite (inventory_update_ok _ pid (take p q) (- q)).
    + cbn [products]. rewrite insert_insert_eq, take_take_back.
      rewrite insert_id by exact Hp. rewrite inventory_eta. reflexivity.
    + unfold get_product. cbn [products]. apply lookup_insert_eq.
    + cbn [take stock]. lia.
Qed.

Lemma update_stock_rollback_witness :
  exists inv1,
    Inventory_update_stock "prod_xyz" 2 Demo.inventory = (Ok tt, inv1) /\
    Inventory_update_stock "prod_xyz" (- 2) inv1 = (Ok tt, Demo.inventory).
Proof.
  apply (update_stock_rollback Demo.inventory "prod_xyz" Demo.product2 2).
  - vm_compute. reflexivity.
  - vm_compute. discriminate.
  - vm_compute. discriminate.
Defined.

End InventoryFacts.

(** ** Totals and validation *)

Section TotalsAndValidation.

Local Open Scope Q_scope.

Lemma qsum_prices (its : list Item) :
  qsum (map (fun item => mul (of_int (quantity item)) (unit_price item)) its)
  == exact_total its.
Proof.
  induction its as [|item its IH]; cbn [map qsum exact_total]; [reflexivity|].
  rewrite IH, dval_mul, dval_of_int. reflexivity.
Qed.


Lemma calculate_total_val (o : Order) :
  dval (calculate_total o) == exact_total (items o).
Proof. unfold calculate_total. rewrite dval_sum. apply qsum_prices. Qed.




Lemma process_item_cases (inv : Inventory) (idx : nat) (it : ItemData) :
  well_formed_item it \/
  exists msg, process_item inv idx it = inl (error msg).
Proof.
  destruct it as [[pid|] [[q|]|] [up|]]; unfold process_item;
    cbn [data_product_id data_quantity data_unit_price];
    try (right; eexists; reflexivity).
  destruct (Z.leb_spec q 0) as [Hq|Hq]; [right; eexists; reflexivity|].
  destruct (ltb up zero2) eqn:Hup; [right; eexists; reflexivity|].
  left. exists pid, q, up. split; [reflexivity|]. split; [exact Hq|].
  apply nonnegative_iff, Hup.
Qed.

Lemma process_items_cases (inv : Inventory) (l : list ItemData) :
  forall idx acc,
  Forall well_formed_item l \/
  exists msg, process_items inv idx l acc = inl (error msg).
Proof.
  induction l as [|it l IH]; intros idx acc; [left; constructor|].
  destruct (process_item_cases inv idx it) as [Hit|[msg Hmsg]].
  - destruct (process_item_well_formed inv idx it Hit) as (item & Hp & _).
    destruct (IH (S idx) (acc ++ [item])) as [Hl|[msg Hmsg]].
    + left. constructor; assumption.
    + right. exists msg. cbn [process_items]. rewrite Hp. exact Hmsg.
  - right. exists msg. cbn [process_items]. rewrite Hmsg. reflexivity.
Qed.

Lemma request_cases (order_data : OrderData)
    (dt : DatetimeModule) (coll : option Collection) (ou eu : string)
    (w : World) :
  (exists l, well_formed order_data l) \/
  exists msg,
    accept_purchase_order order_data dt coll ou eu w = (Ok (error msg), w).
Proof.
  unfold accept_purchase_order.
  destruct (data_customer_id order_data) as [customer|] eqn:Hc;
    [|right; eexists; reflexivity].
  destruct (data_items order_data) as [[l|]|] eqn:Hi;
    [|right; eexists; reflexivity..].
  destruct l as [|it l]; [right; eexists; reflexivity|].
  destruct (process_items_cases (inventory_system w) (it :: l) 0 [])
    as [Hwf|[msg Hmsg]].
  - left. exists (it :: l). split; [rewrite Hc; eexists; reflexivity|].
    split; [exact Hi|]. split; [discriminate | exact Hwf].
  - right. exists msg. unfold bind, get. rewrite Hmsg. reflexivity.
Qed.


End TotalsAndValidation.

(** ** The workflow as a whole *)

Section WorkflowFacts.

Local Open Scope Q_scope.

Lemma process_items_eq (inv : Inventory) (l : list ItemData) :
  forall idx acc,
  Forall well_formed_item l ->
  process_items inv idx l acc = inr (acc ++ map (item_of inv) l).
Proof.
  induction l as [|it l IH]; intros idx acc Hwf; cbn [process_items map].
  - rewrite app_nil_r. reflexivity.
  - apply Forall_cons in Hwf as [(pid & q & up & -> & Hq & Hup) Hl].
    unfold process_item. cbn [data_product_id data_quantity data_unit_price].
    destruct (Z.leb_spec q 0) as [Hle|_]; [lia|].
    rewrite (proj2 (nonnegative_iff up) Hup).
    rewrite IH by exact Hl. rewrite <- app_assoc. reflexivity.
Qed.

Lemma check_items_result (inv : Inventory) (its : list Item) (err : OrderResult) :
  check_items inv its = Some err -> exists msg, err = error msg.
Proof.
  induction its as [|item its IH]; cbn [check_items]; [discriminate|].
  destruct (negb _); [|exact IH].
  intros Heq. injection Heq as <-. eexists. reflexivity.
Qed.

Lemma reserve_store (its : list Item) (w w' : World) (r : outcome unit) :
  reserve its w = (r, w') -> store w' = store w.
Proof.
  unfold reserve. revert w. induction its as [|item its IH]; intros w Hrun.
  - injection Hrun as _ <-. reflexivity.
  - cbn [for_each] in Hrun. unfold bind in Hrun.
    destruct (on_inventory _ w) as [r1 w1] eqn:Hstep.
    assert (Hs : store w1 = store w).
    { unfold on_inventory, zoom in Hstep.
      destruct (Inventory_update_stock _ _ _) as [r2 t].
      injection Hstep as _ <-. reflexivity. }
    destruct r1 as [[]|ex].
    + rewrite <- Hs. apply IH, Hrun.
    + injection Hrun as _ <-. exact Hs.
Qed.

(** How a call goes on once validation has passed. *)
Lemma accept_well_formed (order_data : OrderData) (l : list ItemData)
    (dt : DatetimeModule) (coll : option Collection) (ou eu : string)
    (w : World) :
  well_formed order_data l ->
  accept_purchase_order order_data dt coll ou eu w =
  (let its := map (item_of (inventory_system w)) l in
   match check_items (inventory_system w) its with
   | Some err => ret err
   | None =>
       reserve its ;;
       match coll with
       | Some (InsertRaises e) =>
           ret (error ("Failed to save order to database: " +:+ e))
       | _ => finish_order (order_of order_data dt ou its) eu
       end
   end) w.
Proof.
  intros ([customer Hc] & Hitems & Hne & Hwf).
  unfold accept_purchase_order, order_of. rewrite Hc, Hitems.
  destruct l as [|it0 l0]; [contradiction|].
  unfold bind at 1. unfold get at 1.
  rewrite (process_items_eq _ _ 0 [] Hwf). cbn [app items].
  cbv zeta. cbn [negb from_option id].
  destruct (check_items _ _); [reflexivity|].
  destruct coll as [[|e]|]; reflexivity.
Qed.

Lemma bind_get_account_none {A} (n : string) (k : loc -> M Store A)
    (s : Store) :
  accounts (ledger_system s) !! n = None ->
  bind (get_account n) k s =
  (Raise (ValueError ("Account with name '" +:+ n +:+ "' not found.")), s).
Proof.
  intros Hl. unfold get_account, bind, get. rewrite Hl. reflexivity.
Qed.

Lemma bind_add_line_raise {A} (e : JournalEntry) (a : loc) (amt : Decimal)
    (t : JournalEntryLineType) (k : JournalEntry -> M Store A) (s : Store) :
  leb amt zero2 = true ->
  bind (lift_outcome (add_line e a amt t)) k s =
  (Raise (ValueError "Journal entry line amount must be positive."), s).
Proof.
  intros Hpos. unfold bind, lift_outcome, add_line, JournalEntryLine_init.
  rewrite Hpos. reflexivity.
Qed.

Lemma sale_only_entry_balanced (d : date) (ou eu : string) (total : Decimal)
    (cash revenue : loc) :
  is_balanced (sale_only_entry_of d ou eu total cash revenue) = true.
Proof. apply is_balanced_totals. cbn. ring. Qed.

(** Step 6 either raises with the ledger untouched, or records the sale
    entry and falls through. *)
Lemma post_sale_outcome (o : Order) (eu : string) (s s' : Store)
    (r : outcome (option OrderResult)) :
  post_sale o (calculate_total o) (calculate_total_cost_of_goods_sold o) eu s
  = (r, s') ->
  (exists ex, r = Raise ex /\ s' = s) \/
  (r = Ok None /\
   exists e, sale_entry_for s o eu e /\ record_entry e s = (Ok tt, s')).
Proof.
  set (total := calculate_total o).
  set (cogs_amt := calculate_total_cost_of_goods_sold o).
  unfold post_sale. cbv zeta. intros Hrun.
  destruct (accounts (ledger_system s) !! "Cash") as [cash|] eqn:Hcash;
    [|rewrite bind_get_account_none in Hrun by exact Hcash;
      injection Hrun as <- <-; left; eauto].
  rewrite (bind_get_account _ _ _ _ Hcash) in Hrun; cbv beta in Hrun.
  destruct (accounts (ledger_system s) !! "Sales Revenue") as [revenue|]
    eqn:Hrev;
    [|rewrite bind_get_account_none in Hrun by exact Hrev;
      injection Hrun as <- <-; left; eauto].
  rewrite (bind_get_account _ _ _ _ Hrev) in Hrun; cbv beta in Hrun.
  destruct (leb total zero2) eqn:Ht;
    [rewrite bind_add_line_raise in Hrun by exact Ht;
     injection Hrun as <- <-; left; eauto|].
  rewrite !(bind_add_line _ _ _ _ _ _ Ht) in Hrun; cbv beta in Hrun.
  cbn [lines jdate description entry_id JournalEntry_init app] in Hrun.
  pose proof (proj1 (positive_iff total) Ht) as Htot.
  destruct (gtb cogs_amt zero2) eqn:Hg.
  - pose proof (proj1 (gtb_spec _ _) Hg) as Hcpos.
    rewrite dval_zero2 in Hcpos.
    pose proof (proj2 (positive_iff cogs_amt) Hcpos) as Hc.
    unfold bind at 1 in Hrun.
    destruct (accounts (ledger_system s) !! "Cost of Goods Sold") as [cogs|]
      eqn:Hcogs;
      [|rewrite bind_get_account_none in Hrun by exact Hcogs;
        injection Hrun as <- <-; left; eauto].
    rewrite (bind_get_account _ _ _ _ Hcogs) in Hrun; cbv beta in Hrun.
    destruct (accounts (ledger_system s) !! "Inventory") as [inventory|]
      eqn:Hinv;
      [|rewrite bind_get_account_none in Hrun by exact Hinv;
        injection Hrun as <- <-; left; eauto].
    rewrite (bind_get_account _ _ _ _ Hinv) in Hrun; cbv beta in Hrun.
    rewrite (bind_add_line _ _ _ _ _ _ Hc) in Hrun; cbv beta in Hrun.
    unfold lift_outcome in Hrun. rewrite (add_line_ok _ _ _ _ Hc) in Hrun.
    cbn [lines jdate description entry_id app] in Hrun.
    fold (sale_entry_of (order_date o) (order_id o) eu total cogs_amt
            cash revenue cogs inventory) in Hrun.
    rewrite sale_entry_balanced in Hrun. cbn [negb] in Hrun.
    destruct (record_entry_ok
                (sale_entry_of (order_date o) (order_id o) eu total cogs_amt
                   cash revenue cogs inventory) s)
      as (s1 & Hrec & _).
    { apply sale_entry_balanced. }
    { repeat constructor; cbn [amount]; apply Qlt_le_weak; assumption. }
    unfold bind in Hrun. rewrite Hrec in Hrun. injection Hrun as <- <-.
    right. split; [reflexivity|]. eexists. split; [|exact Hrec].
    exists cash, revenue. fold total cogs_amt.
    split; [exact Hcash|]. split; [exact Hrev|]. split; [exact Htot|].
    right. split; [exact Hcpos|]. exists cogs, inventory. auto.
  - assert (Hcle : dval cogs_amt <= 0).
    { apply Qnot_lt_le. intros Hlt.
      assert (Hg' : gtb cogs_amt zero2 = true)
        by (apply gtb_spec; rewrite dval_zero2; exact Hlt).
      congruence. }
    unfold bind at 1, ret at 1 in Hrun.
    fold (sale_only_entry_of (order_date o) (order_id o) eu total
            cash revenue) in Hrun.
    rewrite sale_only_entry_balanced in Hrun. cbn [negb] in Hrun.
    destruct (record_entry_ok
                (sale_only_entry_of (order_date o) (order_id o) eu total
                   cash revenue) s)
      as (s1 & Hrec & _).
    { apply sale_only_entry_balanced. }
    { repeat constructor; cbn [amount]; apply Qlt_le_weak; assumption. }
    unfold bind in Hrun. rewrite Hrec in Hrun. injection Hrun as <- <-.
    right. split; [reflexivity|]. eexists. split; [|exact Hrec].
    exists cash, revenue. fold total cogs_amt.
    split; [exact Hcash|]. split; [exact Hrev|]. split; [exact Htot|].
    left. auto.
Qed.

Lemma finish_order_outcome (o : Order) (eu : string) (w w' : World)
    (r : outcome OrderResult) :
  finish_order o eu w = (r, w') ->
  inventory_system w' = inventory_system w /\
  ((store w' = store w /\ exists msg, r = Ok (error msg)) \/
   (r = Ok (success (order_id o) (calculate_total o)) /\
    exists e, sale_entry_for (store w) o eu e /\
              record_entry e (store w) = (Ok tt, store w'))).
Proof.
  unfold finish_order, bind, try_except, on_ledger, zoom. intros Hrun.
  destruct (post_sale o _ _ eu (store w)) as [r1 s1] eqn:Hpost.
  destruct (post_sale_outcome _ _ _ _ _ Hpost)
    as [(ex & -> & ->)|(-> & e & He & Hrec)].
  - cbn in Hrun. injection Hrun as <- <-. cbn.
    split; [reflexivity|]. left. split; [reflexivity|]. eexists. reflexivity.
  - cbn in Hrun. injection Hrun as <- <-. cbn.
    split; [reflexivity|]. right. split; [reflexivity|]. eauto.
Qed.

End WorkflowFacts.

Section WorkflowOutcomes.

Local Open Scope Q_scope.

Lemma record_entry_journal (s s' : Store) (e : JournalEntry) :
  record_entry e s = (Ok tt, s') ->
  accounts (ledger_system s') = accounts (ledger_system s) /\
  journal_entries (ledger_system s') = journal_entries (ledger_system s) ++ [e].
Proof.
  intros Hrun. rewrite record_entry_unfold in Hrun.
  destruct (is_balanced e); cbn [negb] in Hrun; [|discriminate].
  unfold bind in Hrun.
  destruct (for_each (lines e) post_line s) as [[[]|ex] s1] eqn:Hloop;
    [|discriminate].
  apply post_lines_ledger in Hloop. injection Hrun as <-.
  cbn. rewrite Hloop. split; reflexivity.
Qed.

Lemma sale_entry_for_balanced (s : Store) (o : Order) (eu : string)
    (e : JournalEntry) :
  sale_entry_for s o eu e ->
  is_balanced e = true /\ entry_id e = eu /\
  (length (lines e) = 2%nat \/ length (lines e) = 4%nat).
Proof.
  intros (cash & revenue & _ & _ & _ & [[_ ->]|(_ & cogs & inv & _ & _ & ->)]).
  - split; [apply sale_only_entry_balanced|]. split; [reflexivity|left; reflexivity].
  - split; [apply sale_entry_balanced|]. split; [reflexivity|right; reflexivity].
Qed.


(** Every way a call can end, seen from the ledger. *)
Lemma accept_cases (order_data : OrderData) (dt : DatetimeModule)
    (coll : option Collection) (ou eu : string) (w w' : World)
    (r : outcome OrderResult) :
  accept_purchase_order order_data dt coll ou eu w = (r, w') ->
  (store w' = store w /\
   ((exists ex, r = Raise ex) \/ exists msg, r = Ok (error msg))) \/
  (exists its e,
     r = Ok (success ou (calculate_total (order_of order_data dt ou its))) /\
     sale_entry_for (store w) (order_of order_data dt ou its) eu e /\
     record_entry e (store w) = (Ok tt, store w')).
Proof.
  intros Hrun.
  destruct (request_cases order_data dt coll ou eu w) as [[l Hwf]|[msg Hmsg]].
  2:{ rewrite Hmsg in Hrun. injection Hrun as <- <-.
      left. split; [reflexivity|]. right. eauto. }
  rewrite (accept_well_formed _ l _ _ _ _ _ Hwf) in Hrun. cbv zeta in Hrun.
  set (its := map (item_of (inventory_system w)) l) in *.
  destruct (check_items (inventory_system w) its) as [err|] eqn:Hchk.
  { destruct (check_items_result _ _ _ Hchk) as [msg ->].
    injection Hrun as <- <-. left. split; [reflexivity|]. right. eauto. }
  unfold bind in Hrun.
  destruct (reserve its w) as [r1 w1] eqn:Hres.
  pose proof (reserve_store _ _ _ _ Hres) as Hs1.
  destruct r1 as [[]|ex].
  2:{ injection Hrun as <- <-. left. split; [exact Hs1|]. left. eauto. }
  assert (Hfin : (exists e, coll = Some (InsertRaises e)) \/
                 finish_order (order_of order_data dt ou its) eu w1 = (r, w')).
  { destruct coll as [[|e]|]; eauto. }
  destruct Hfin as [[e ->]|Hfin].
  { injection Hrun as <- <-. left. split; [exact Hs1|]. right. eauto. }
  destruct (finish_order_outcome _ _ _ _ _ Hfin)
    as [_ [[Hs (msg & ->)]|(-> & e & He & Hrec)]].
  - left. split; [congruence|]. right. eauto.
  - right. exists its, e. rewrite Hs1 in He, Hrec. auto.
Qed.

(** X18: however a call to [accept_purchase_order] ends, the ledger moves
    all or nothing.  Either the call raises or returns an error result and
    account objects, dict and committed entries are exactly as before; or
    it returns success and exactly one balanced entry, of two or four
    lines and carrying the given id, was recorded and appended. *)
Theorem accept_ledger_all_or_nothing (order_data : OrderData)
    (dt : DatetimeModule) (coll : option Collection) (ou eu : string)
    (w w' : World) (r : outcome OrderResult) :
  accept_purchase_order order_data dt coll ou eu w = (r, w') ->
  (store w' = store w /\
   ((exists ex, r = Raise ex) \/ exists msg, r = Ok (error msg))) \/
  (exists e total,
     r = Ok (success ou total) /\
     is_balanced e = true /\ entry_id e = eu /\
     (length (lines e) = 2%nat \/ length (lines e) = 4%nat) /\
     record_entry e (store w) = (Ok tt, store w') /\
     accounts (ledger_system (store w')) = accounts (ledger_system (store w)) /\
     journal_entries (ledger_system (store w')) =
       journal_entries (ledger_system (store w)) ++ [e]).
Proof.
  intros Hrun.
  destruct (accept_cases _ _ _ _ _ _ _ _ Hrun)
    as [Hleft|(its & e & -> & He & Hrec)]; [left; exact Hleft|].
  right. exists e. eexists. split; [reflexivity|].
  destruct (sale_entry_for_balanced _ _ _ _ He) as (Hb & Hid & Hlen).
  destruct (record_entry_journal _ _ _ Hrec) as [Ha Hj]. auto 10.
Qed.

Lemma accept_ledger_all_or_nothing_witness :
  let run := accept_purchase_order Demo.two_mice Demo.dt_module None "o1" "e1"
               Demo.world in
  (store (snd run) = store Demo.world /\
   ((exists ex, fst run = Raise ex) \/ exists msg, fst run = Ok (error msg))) \/
  (exists e total,
     fst run = Ok (success "o1" total) /\
     is_balanced e = true /\ entry_id e = "e1" /\
     (length (lines e) = 2%nat \/ length (lines e) = 4%nat) /\
     record_entry e (store Demo.world) = (Ok tt, store (snd run)) /\
     accounts (ledger_system (store (snd run))) =
       accounts (ledger_system (store Demo.world)) /\
     journal_entries (ledger_system (store (snd run))) =
       journal_entries (ledger_system (store Demo.world)) ++ [e]).
Proof.
  intros run.
  apply (accept_ledger_all_or_nothing Demo.two_mice Demo.dt_module None
           "o1" "e1" Demo.world (snd run) (fst run)).
  apply surjective_pairing.
Defined.



End WorkflowOutcomes.

Section Reservation.

Local Open Scope Q_scope.

Lemma check_items_none (inv : Inventory) (its : list Item) :
  Forall (fun item =>
            Inventory_check_stock inv (item_product_id item) (quantity item)
            = true) its ->
  check_items inv its = None.
Proof.
  induction 1 as [|item its Hc _ IH]; cbn [check_items]; [reflexivity|].
  rewrite Hc. exact IH.
Qed.

Lemma check_stock_insert_other (ps : gmap string Product) (pid pid' : string)
    (p' : Product) (q : Z) :
  pid' <> pid ->
  Inventory_check_stock {| products := <[pid := p']> ps |} pid' q =
  Inventory_check_stock {| products := ps |} pid' q.
Proof.
  intros Hne. unfold Inventory_check_stock, get_product. cbn [products].
  rewrite lookup_insert_ne by congruence. reflexivity.
Qed.




Lemma reserve_ok (its : list Item) :
  forall (s : Store) (ps : gmap string Product),
  NoDup (map item_product_id its) ->
  Forall (fun item =>
            Inventory_check_stock {| products := ps |} (item_product_id item)
              (quantity item) = true) its ->
  reserve its {| store := s; inventory_system := {| products := ps |} |} =
  (Ok tt, {| store := s;
             inventory_system := {| products := take_items its ps |} |}).
Proof.
  unfold reserve.
  induction its as [|item its IH]; intros s ps Hnd Hall; [reflexivity|].
  cbn [map] in Hnd. apply NoDup_cons in Hnd as [Hh Hnd].
  apply Forall_cons in Hall as [Hc Hall].
  unfold Inventory_check_stock, get_product in Hc. cbn [products] in Hc.
  destruct (ps !! item_product_id item) as [p|] eqn:Hp; [|discriminate].
  unfold Product_check_stock in Hc. rewrite Z.geb_leb in Hc.
  apply Z.leb_le in Hc.
  cbn [for_each]. unfold bind at 1.
  rewrite (update_stock_ok _ (item_product_id item) p (quantity item))
    by (cbn; assumption).
  cbn [store inventory_system products].
  assert (Htake : take_items (item :: its) ps =
                  take_items its (<[item_product_id item := take p (quantity item)]> ps)).
  { unfold take_items. cbn [fold_left]. unfold take_item at 2.
    rewrite Hp. reflexivity. }
  rewrite Htake. apply IH; [exact Hnd|].
  apply Forall_forall. intros item' Hin.
  rewrite check_stock_insert_other.
  - rewrite Forall_forall in Hall. apply Hall, Hin.
  - intros Heq. apply Hh. rewrite <- Heq.
    apply list_elem_of_fmap. exists item'. split; [reflexivity | exact Hin].
Qed.

Lemma reserve_world (its : list Item) (w : World) :
  NoDup (map item_product_id its) ->
  Forall (fun item =>
            Inventory_check_stock (inventory_system w) (item_product_id item)
              (quantity item) = true) its ->
  reserve its w =
  (Ok tt, {| store := store w;
             inventory_system :=
               {| products := take_items its (products (inventory_system w)) |} |}).
Proof.
  destruct w as [s [ps]]. apply reserve_ok.
Qed.

(** The call after validation, the availability check and the stock
    update of an order whose items name distinct products in stock. *)
Lemma accept_reserved (order_data : OrderData) (l : list ItemData)
    (dt : DatetimeModule) (coll : option Collection) (ou eu : string)
    (w : World) :
  well_formed order_data l ->
  let its := map (item_of (inventory_system w)) l in
  NoDup (map item_product_id its) ->
  Forall (fun item =>
            Inventory_check_stock (inventory_system w) (item_product_id item)
              (quantity item) = true) its ->
  accept_purchase_order order_data dt coll ou eu w =
  match coll with
  | Some (InsertRaises e) =>
      ret (error ("Failed to save order to database: " +:+ e))
  | _ => finish_order (order_of order_data dt ou its) eu
  end {| store := store w;
         inventory_system :=
           {| products := take_items its (products (inventory_system w)) |} |}.
Proof.
  intros Hwf its Hnd Hall.
  rewrite (accept_well_formed _ l _ _ _ _ _ Hwf). cbv zeta. fold its.
  rewrite (check_items_none _ _ Hall).
  unfold bind. rewrite (reserve_world its w Hnd Hall). reflexivity.
Qed.


End Reservation.

Section WorkflowEndings.

Local Open Scope Q_scope.


(** X21: when the database insert raises, the call returns the
    "Failed to save order to database" error result: the stock of the
    order has been taken and stays taken, and the ledger is untouched. *)
Theorem database_failure_after_stock (order_data : OrderData)
    (l : list ItemData) (dt : DatetimeModule) (e : string) (ou eu : string)
    (w : World) :
  well_formed order_data l ->
  let its := map (item_of (inventory_system w)) l in
  NoDup (map item_product_id its) ->
  Forall (fun item =>
            Inventory_check_stock (inventory_system w) (item_product_id item)
              (quantity item) = true) its ->
  accept_purchase_order order_data dt (Some (InsertRaises e)) ou eu w =
  (Ok (error ("Failed to save order to database: " +:+ e)),
   {| store := store w;
      inventory_system :=
        {| products := take_items its (products (inventory_system w)) |} |}).
Proof.
  intros Hwf its Hnd Hall.
  rewrite (accept_reserved _ l _ _ _ _ _ Hwf Hnd Hall). reflexivity.
Qed.

Lemma database_failure_after_stock_witness :
  accept_purchase_order Demo.two_mice Demo.dt_module
    (Some (InsertRaises "connection lost")) "o1" "e1" Demo.world =
  (Ok (error ("Failed to save order to database: " +:+ "connection lost")),
   {| store := store Demo.world;
      inventory_system :=
        {| products :=
             take_items
               (map (item_of (inventory_system Demo.world))
                  [ {| data_product_id := Some "prod_xyz";
                       data_quantity := Some (QInt 2);
                       data_unit_price := Some (D 2500 (-2)) |} ])
               (products (inventory_system Demo.world)) |} |}).
Proof.
  apply (database_failure_after_stock Demo.two_mice _ Demo.dt_module
           "connection lost" "o1" "e1" Demo.world).
  - apply single_item_well_formed; [lia | vm_compute; discriminate].
  - repeat constructor. intros Hmem. inversion Hmem.
  - repeat constructor.
Defined.

Lemma exact_total_zero (its : list Item) :
  Forall (fun item => dval (unit_price item) == 0) its -> exact_total its == 0.
Proof.
  induction 1 as [|item its Hz _ IH]; cbn [exact_total]; [reflexivity|].
  rewrite Hz, IH. ring.
Qed.

(** X22: validation lets a unit price of zero through, the posting step
    does not: an order all of whose unit prices are zero, for products in
    stock and with "Cash" and "Sales Revenue" registered, ends with the
    "Failed to record financial transaction" error result because the
    journal line of amount zero is refused; the stock stays taken and the
    ledger is untouched. *)
Theorem free_order_fails_at_posting (order_data : OrderData)
    (l : list ItemData) (dt : DatetimeModule) (coll : option Collection)
    (ou eu : string) (w : World) (cash revenue : loc) :
  well_formed order_data l ->
  let its := map (item_of (inventory_system w)) l in
  NoDup (map item_product_id its) ->
  Forall (fun item =>
            Inventory_check_stock (inventory_system w) (item_product_id item)
              (quantity item) = true) its ->
  Forall (fun item => dval (unit_price item) == 0) its ->
  (forall e, coll <> Some (InsertRaises e)) ->
  accounts (ledger_system (store w)) !! "Cash" = Some cash ->
  accounts (ledger_system (store w)) !! "Sales Revenue" = Some revenue ->
  accept_purchase_order order_data dt coll ou eu w =
  (Ok (error ("Failed to record financial transaction: " +:+
              "Journal entry line amount must be positive.")),
   {| store := store w;
      inventory_system :=
        {| products := take_items its (products (inventory_system w)) |} |}).
Proof.
  intros Hwf its Hnd Hall Hfree Hcoll Hcash Hrev.
  rewrite (accept_reserved _ l _ _ _ _ _ Hwf Hnd Hall). fold its.
  set (o := order_of order_data dt ou its).
  assert (Ht : leb (calculate_total o) zero2 = true).
  { apply leb_spec. rewrite calculate_total_val, dval_zero2.
    unfold o, order_of. cbn [items].
    rewrite (exact_total_zero its Hfree). apply Qle_refl. }
  assert (Hfin : forall w1, store w1 = store w ->
            finish_order o eu w1 =
            (Ok (error ("Failed to record financial transaction: " +:+
                        "Journal entry line amount must be positive.")), w1)).
  { intros [s1 inv1] Hs. cbn in Hs. subst s1.
    unfold finish_order, bind, try_except, on_ledger, zoom.
    cbn [store inventory_system].
    unfold post_sale. cbv zeta.
    rewrite (bind_get_account _ _ _ _ Hcash); cbv beta.
    rewrite (bind_get_account _ _ _ _ Hrev); cbv beta.
    rewrite (bind_add_line_raise _ _ _ _ _ _ Ht). reflexivity. }
  destruct coll as [[|e]|].
  - apply Hfin. reflexivity.
  - exfalso. apply (Hcoll e). reflexivity.
  - apply Hfin. reflexivity.
Qed.

Lemma free_order_fails_at_posting_witness :
  let od := single_item_order "cust_1236" "prod_xyz" 2 (D 0 (-2)) DateOther in
  accept_purchase_order od Demo.dt_module None "o1" "e1" Demo.world =
  (Ok (error ("Failed to record financial transaction: " +:+
              "Journal entry line amount must be positive.")),
   {| store := store Demo.world;
      inventory_system :=
        {| products :=
             take_items
               (map (item_of (inventory_system Demo.world))
                  [ {| data_product_id := Some "prod_xyz";
                       data_quantity := Some (QInt 2);
                       data_unit_price := Some (D 0 (-2)) |} ])
               (products (inventory_system Demo.world)) |} |}).
Proof.
  intros od.
  apply (free_order_fails_at_posting od _ Demo.dt_module None "o1" "e1"
           Demo.world 0%nat 6%nat).
  - apply single_item_well_formed; [lia | vm_compute; discriminate].
  - repeat constructor. intros Hmem. inversion Hmem.
  - repeat constructor.
  - repeat constructor.
  - intros e. discriminate.
  - vm_compute. reflexivity.
  - vm_compute. reflexivity.
Defined.

End WorkflowEndings.

Section AcceptedOrders.

Local Open Scope Q_scope.

Lemma post_sale_records_sale_only (o : Order) (total cogs_amt : Decimal)
    (eu : string) (s : Store) (cash revenue : loc) :
  accounts (ledger_system s) !! "Cash" = Some cash ->
  accounts (ledger_system s) !! "Sales Revenue" = Some revenue ->
  leb total zero2 = false -> gtb cogs_amt zero2 = false ->
  post_sale o total cogs_amt eu s =
  (record_entry (sale_only_entry_of (order_date o) (order_id o) eu total
                   cash revenue) ;;
   ret None) s.
Proof.
  intros Hcash Hrev Ht Hg.
  unfold post_sale. cbv zeta.
  rewrite (bind_get_account _ _ _ _ Hcash); cbv beta.
  rewrite (bind_get_account _ _ _ _ Hrev); cbv beta.
  rewrite !(bind_add_line _ _ _ _ _ _ Ht); cbv beta.
  rewrite Hg. unfold bind at 1, ret at 1.
  cbn [lines jdate description entry_id JournalEntry_init app].
  fold (sale_only_entry_of (order_date o) (order_id o) eu total cash revenue).
  rewrite sale_only_entry_balanced. reflexivity.
Qed.

Lemma post_sale_posts (s : Store) (o : Order) (eu : string) (e : JournalEntry) :
  sale_entry_for s o eu e ->
  exists s',
    record_entry e s = (Ok tt, s') /\
    post_sale o (calculate_total o) (calculate_total_cost_of_goods_sold o) eu s
    = (Ok None, s').
Proof.
  intros (cash & revenue & Hcash & Hrev & Htot & Hcases).
  pose proof (proj2 (positive_iff _) Htot) as Ht.
  destruct Hcases as [[Hle ->]|(Hpos & cogs & inv & Hcogs & Hinv & ->)].
  - assert (Hg : gtb (calculate_total_cost_of_goods_sold o) zero2 = false).
    { apply not_true_iff_false. intros Hg. apply gtb_spec in Hg.
      rewrite dval_zero2 in Hg. apply (Qlt_not_le _ _ Hg Hle). }
    destruct (record_entry_ok
                (sale_only_entry_of (order_date o) (order_id o) eu
                   (calculate_total o) cash revenue) s) as (s' & Hrec & _).
    { apply sale_only_entry_balanced. }
    { repeat constructor; cbn [amount]; apply Qlt_le_weak; assumption. }
    exists s'. split; [exact Hrec|].
    rewrite (post_sale_records_sale_only _ _ _ _ _ cash revenue)
      by assumption.
    unfold bind. rewrite Hrec. reflexivity.
  - pose proof (proj2 (positive_iff _) Hpos) as Hc.
    destruct (record_entry_ok
                (sale_entry_of (order_date o) (order_id o) eu
                   (calculate_total o) (calculate_total_cost_of_goods_sold o)
                   cash revenue cogs inv) s) as (s' & Hrec & _).
    { apply sale_entry_balanced. }
    { repeat constructor; cbn [amount]; apply Qlt_le_weak; assumption. }
    exists s'. split; [exact Hrec|].
    rewrite (post_sale_records _ _ _ _ _ cash revenue cogs inv) by assumption.
    unfold bind. rewrite Hrec. reflexivity.
Qed.

(** X23: an order is accepted whenever it can be.  For a well-formed
    request with distinct products in stock, no database failure, "Cash"
    and "Sales Revenue" registered, a positive total and, when the cost of
    goods sold is positive, "Cost of Goods Sold" and "Inventory"
    registered, the call returns success with the order total; the sale
    entry (two lines, or four with the cost pair) is recorded as the one
    new committed entry and the stock of the order is taken. *)
Theorem order_accepted (order_data : OrderData) (l : list ItemData)
    (dt : DatetimeModule) (coll : option Collection) (ou eu : string)
    (w : World) (e : JournalEntry) :
  well_formed order_data l ->
  let its := map (item_of (inventory_system w)) l in
  let o := order_of order_data dt ou its in
  NoDup (map item_product_id its) ->
  Forall (fun item =>
            Inventory_check_stock (inventory_system w) (item_product_id item)
              (quantity item) = true) its ->
  (forall x, coll <> Some (InsertRaises x)) ->
  sale_entry_for (store w) o eu e ->
  exists s',
    accept_purchase_order order_data dt coll ou eu w =
    (Ok (success ou (calculate_total o)),
     {| store := s';
        inventory_system :=
          {| products := take_items its (products (inventory_system w)) |} |}) /\
    record_entry e (store w) = (Ok tt, s') /\
    journal_entries (ledger_system s') =
      journal_entries (ledger_system (store w)) ++ [e].
Proof.
  intros Hwf its o Hnd Hall Hcoll He.
  destruct (post_sale_posts _ _ _ _ He) as (s' & Hrec & Hpost).
  exists s'. split; [|split; [exact Hrec | apply (record_entry_journal _ _ _ Hrec)]].
  rewrite (accept_reserved _ l _ _ _ _ _ Hwf Hnd Hall). fold its. fold o.
  assert (Hfin : forall inv1,
            finish_order o eu {| store := store w; inventory_system := inv1 |} =
            (Ok (success ou (calculate_total o)),
             {| store := s'; inventory_system := inv1 |})).
  { intros inv1. unfold finish_order, bind, try_except, on_ledger, zoom.
    cbn [store inventory_system]. rewrite Hpost. reflexivity. }
  destruct coll as [[|x]|].
  - apply Hfin.
  - exfalso. apply (Hcoll x). reflexivity.
  - apply Hfin.
Qed.

(** [sample_order_2] of the script: five mice at 24.5. *)
Lemma order_accepted_witness :
  let od := single_item_order "cust_1236" "prod_xyz" 5 (D 245 (-1))
              (DateDatetime {| year := 2025; month := 5; day := 15 |}) in
  let it := {| data_product_id := Some "prod_xyz";
               data_quantity := Some (QInt 5);
               data_unit_price := Some (D 245 (-1)) |} in
  let its := map (item_of (inventory_system Demo.world)) [it] in
  let o := order_of od Demo.dt_module "o2" its in
  let e := sale_entry_of {| year := 2025; month := 5; day := 15 |} "o2" "e2"
             (D 1225 (-1)) (D 5000 (-2)) 0%nat 6%nat 7%nat 2%nat in
  exists s',
    accept_purchase_order od Demo.dt_module None "o2" "e2" Demo.world =
    (Ok (success "o2" (calculate_total o)),
     {| store := s';
        inventory_system :=
          {| products :=
               take_items its (products (inventory_system Demo.world)) |} |}) /\
    record_entry e (store Demo.world) = (Ok tt, s') /\
    journal_entries (ledger_system s') =
      journal_entries (ledger_system (store Demo.world)) ++ [e].
Proof.
  intros od it its o e.
  apply (order_accepted od [it] Demo.dt_module None "o2" "e2" Demo.world e).
  - apply single_item_well_formed; [lia | vm_compute; discriminate].
  - repeat constructor. intros Hmem. inversion Hmem.
  - repeat constructor.
  - intros x. discriminate.
  - exists 0%nat, 6%nat.
    split; [vm_compute; reflexivity|]. split; [vm_compute; reflexivity|].
    split; [vm_compute; reflexivity|]. right.
    split; [vm_compute; reflexivity|]. exists 7%nat, 2%nat.
    split; [vm_compute; reflexivity|]. split; [vm_compute; reflexivity|].
    reflexivity.
Defined.

(** X24: two lines for the same product are checked one by one against
    the full stock but taken one after the other.  When each quantity
    fits and their sum does not, the second [update_stock] raises, nothing
    catches it, and the call ends in that exception with the first
    quantity already taken and the ledger untouched. *)
Theorem repeated_product_raises (w : World) (p : Product)
    (customer pid : string) (q1 q2 : Z) (up1 up2 : Decimal) (d : DateValue)
    (dt : DatetimeModule) (coll : option Collection) (ou eu : string) :
  get_product (inventory_system w) pid = Some p ->
  (0 < q1)%Z -> (0 < q2)%Z -> 0 <= dval up1 -> 0 <= dval up2 ->
  (q1 <= stock p)%Z -> (q2 <= stock p)%Z -> (stock p < q1 + q2)%Z ->
  accept_purchase_order (two_item_order customer pid q1 up1 pid q2 up2 d)
    dt coll ou eu w =
  (Raise (ValueError
     ("Not enough stock for product " +:+ product_id p +:+
      ". Available: " +:+ pretty (stock p - q1)%Z +:+
      ", Requested: " +:+ pretty q2)),
   {| store := store w;
      inventory_system :=
        {| products := <[pid := take p q1]> (products (inventory_system w)) |} |}).
Proof.
  intros Hp Hq1 Hq2 Hup1 Hup2 Hs1 Hs2 Hsum.
  set (it1 := {| data_product_id := Some pid; data_quantity := Some (QInt q1);
                 data_unit_price := Some up1 |}).
  set (it2 := {| data_product_id := Some pid; data_quantity := Some (QInt q2);
                 data_unit_price := Some up2 |}).
  assert (Hwf : well_formed (two_item_order customer pid q1 up1 pid q2 up2 d)
                  [it1; it2]).
  { split; [eexists; reflexivity|]. split; [reflexivity|].
    split; [discriminate|].
    repeat constructor; [exists pid, q1, up1 | exists pid, q2, up2]; auto. }
  rewrite (accept_well_formed _ _ _ _ _ _ _ Hwf). clear Hwf.
  subst it1 it2. unfold item_of. cbv zeta.
  cbn [map data_product_id data_quantity data_unit_price from_option id].
  assert (Hc : forall q, (q <= stock p)%Z ->
                 Inventory_check_stock (inventory_system w) pid q = true).
  { intros q Hq. unfold Inventory_check_stock. rewrite Hp.
    unfold Product_check_stock. rewrite Z.geb_leb. apply Z.leb_le, Hq. }
  cbn [check_items item_product_id quantity].
  rewrite (Hc q1 Hs1), (Hc q2 Hs2). cbn [negb].
  unfold reserve. cbn [for_each item_product_id quantity].
  unfold bind at 1. unfold bind at 1.
  rewrite (update_stock_ok w pid p q1 Hp Hs1).
  unfold bind at 1.
  unfold on_inventory, zoom. cbn [inventory_system store].
  rewrite (inventory_update_short _ pid (take p q1) q2).
  - reflexivity.
  - unfold get_product. cbn [products]. apply lookup_insert_eq.
  - cbn [take stock]. lia.
Qed.

(** Three mice and then ninety-nine more of the hundred in stock. *)
Lemma repeated_product_raises_witness :
  accept_purchase_order
    (two_item_order "cust_1236" "prod_xyz" 3 (D 2500 (-2))
       "prod_xyz" 99 (D 2500 (-2)) DateOther)
    Demo.dt_module None "o1" "e1" Demo.world =
  (Raise (ValueError
     ("Not enough stock for product " +:+ product_id Demo.product2 +:+
      ". Available: " +:+ pretty (stock Demo.product2 - 3)%Z +:+
      ", Requested: " +:+ pretty 99%Z)),
   {| store := store Demo.world;
      inventory_system :=
        {| products := <["prod_xyz" := take Demo.product2 3]>
                         (products (inventory_system Demo.world)) |} |}).
Proof.
  apply (repeated_product_raises Demo.world Demo.product2 "cust_1236"
           "prod_xyz" 3 99 (D 2500 (-2)) (D 2500 (-2)) DateOther
           Demo.dt_module None "o1" "e1").
  - vm_compute. reflexivity.
  - lia.
  - lia.
  - vm_compute. discriminate.
  - vm_compute. discriminate.
  - vm_compute. discriminate.
  - vm_compute. discriminate.
  - vm_compute. reflexivity.
Defined.

End AcceptedOrders.

Section SaleBalances.

Local Open Scope Q_scope.



End SaleBalances.
